(** * Authorized-origin validation ([validateUrl] of
    [client/www/components/dash/AppAuth.tsx])

    The dashboard form turns the text typed by the user and the selected
    service kind into the parameter list of an authorized origin.  This file
    embeds [validateUrl] together with the platform pieces it calls (the
    string methods and the [URL] constructor) and proves the properties the
    specification states about it.

    Strings are sequences of code units in the range U+0000..U+00FF
    ([Stdlib.Strings.String]); a thrown JavaScript exception is an explicit
    [Throw] completion. *)

From Stdlib Require Import String Ascii List NArith Bool Arith Lia.
From Stdlib Require Import DecimalString HexadecimalString.
From Equations Require Import Equations.
From Equations.Prop Require Import Logic.
Import ListNotations.

Open Scope list_scope.
Open Scope string_scope.

(** ** JavaScript values and completions *)

Inductive exn : Type :=
| TypeError (message : string)
| Error (message : string).

Inductive completion (A : Type) : Type :=
| Return (value : A)
| Throw (e : exn).
Arguments Return {A} value.
Arguments Throw {A} e.

Definition bind {A B : Type} (m : completion A) (k : A -> completion B)
  : completion B :=
  match m with
  | Return a => k a
  | Throw e => Throw e
  end.

Notation "x <- m ;; k" := (bind m (fun x => k))
  (at level 61, m at next level, right associativity).

(** [try { body } catch (e) { handler }] *)
Definition try_catch {A : Type} (body : completion A)
  (handler : exn -> completion A) : completion A :=
  match body with
  | Return a => Return a
  | Throw e => handler e
  end.

(** ** The string methods used by the validator *)

Module JS.

(** [s.startsWith(prefix)] *)
Fixpoint startsWith (s search : string) {struct search} : bool :=
  match search with
  | EmptyString => true
  | String p search' =>
      match s with
      | EmptyString => false
      | String c s' => Ascii.eqb c p && startsWith s' search'
      end
  end.

(** [s.slice(0, -1)]: everything but the last code unit. *)
Fixpoint slice_0_m1 (s : string) : string :=
  match s with
  | EmptyString => EmptyString
  | String c EmptyString => EmptyString
  | String c s' => String c (slice_0_m1 s')
  end.

(** [s.split(sep)] for a one-character separator: the pieces between the
    separators, the empty string giving one empty piece. *)
Fixpoint split (sep : ascii) (s : string) : list string :=
  match s with
  | EmptyString => [EmptyString]
  | String c s' =>
      if Ascii.eqb c sep then EmptyString :: split sep s'
      else match split sep s' with
           | piece :: pieces => String c piece :: pieces
           | [] => [String c EmptyString]
           end
  end.

(** [!s] for a string: only the empty string is falsy. *)
Definition falsy (s : string) : bool :=
  match s with
  | EmptyString => true
  | String _ _ => false
  end.

End JS.

(** ** The [URL] object, as far as the validator reads it *)

Record URL : Type := mkURL {
  protocol : string;   (* [url.protocol], the scheme followed by ":" *)
  host : string;       (* [url.host], the host and, if any, ":" and the port *)
  port : string        (* [url.port], empty when absent or the default *)
}.

(** ** The validator *)

Inductive ValidationResult : Type :=
| error (message : string)
| success (params : list string).

(** The arms of [switch (service)]; the service kind is the string the select
    box holds at run time. *)
Inductive case_label : Type :=
| case_netlify | case_vercel | case_custom_scheme | case_generic | case_default.

Definition switch (service : string) : case_label :=
  if String.eqb service "netlify" then case_netlify
  else if String.eqb service "vercel" then case_vercel
  else if String.eqb service "custom-scheme" then case_custom_scheme
  else if String.eqb service "generic" then case_generic
  else case_default.

(** What is left of the retry budget: the catch block of the generic arm calls
    [validateUrl] again only on an input that does not start with "http". *)
Definition retries_left (originParam : string) : nat :=
  if JS.startsWith originParam "http" then 0 else 1.

Section Validator.

(** [URL_new s] is [new URL(s)]: [None] when the constructor throws its
    [TypeError]. *)
Variable URL_new : string -> option URL.

Definition new_URL (s : string) : completion URL :=
  match URL_new s with
  | Some url => Return url
  | None => Throw (TypeError "Invalid URL")
  end.

(** The [try] block of the custom-scheme arm. *)
Definition custom_scheme_try (originParam : string)
  : completion ValidationResult :=
  url <- new_URL originParam ;;
  let scheme := JS.slice_0_m1 (protocol url) in
  Return (success [scheme]).

(** The [try] block of the generic arm. *)
Definition generic_try (originParam : string) : completion ValidationResult :=
  url <- new_URL originParam ;;
  let h := host url in
  if JS.falsy h then Throw (Error "missing host")
  else if Nat.eqb (List.length (JS.split "." h)) 1 && JS.falsy (port url)
       then Throw (Error "invalid url")
       else Return (success [h]).

Equations? validateUrl (originParam service : string)
  : completion ValidationResult by wf (retries_left originParam) lt :=
validateUrl originParam service with switch service := {
  | case_netlify => Return (success [originParam]) ;
  | case_vercel => Return (success ["vercel.app"; originParam]) ;
  | case_custom_scheme =>
      try_catch (custom_scheme_try originParam)
        (fun _ => Return (error "Invalid scheme.")) ;
  | case_generic with generic_try originParam := {
      | Return r => Return r ;
      | Throw e with inspect (JS.startsWith originParam "http") := {
          | exist _ false not_http =>
              validateUrl ("http://" ++ originParam) service ;
          | exist _ true _ => Return (error "Invalid URL.") } } ;
  | case_default => Return (error "Unknown type") }.
Proof.
  unfold retries_left. simpl in *. rewrite not_http. lia.
Qed.

End Validator.


(** ** The [URL] constructor of the platform

    [new URL(input)] with no base runs the basic URL parser of the URL
    Standard (url.spec.whatwg.org) and throws a [TypeError] on failure.  The
    module follows the parser state by state as far as it decides failure,
    scheme, host and port; path, query and fragment never fail and are
    not read by the validator.  The one step that is not reproduced is Unicode
    ToASCII (UTS #46, with the Unicode tables) for a domain that is not plain
    ASCII or has an "xn--" label: it is the parameter [unicode_ToASCII]. *)

Module WHATWG.

Local Infix "==" := Ascii.eqb (at level 70, no associativity).

Definition code (c : ascii) : N := N_of_ascii c.

Definition in_range (lo hi : N) (c : ascii) : bool :=
  (lo <=? code c)%N && (code c <=? hi)%N.

Definition is_c0_control_or_space (c : ascii) : bool := (code c <=? 32)%N.
Definition is_c0_control (c : ascii) : bool := (code c <=? 31)%N.
Definition is_tab_or_newline (c : ascii) : bool :=
  (code c =? 9)%N || (code c =? 10)%N || (code c =? 13)%N.
Definition is_upper_alpha : ascii -> bool := in_range 65 90.
Definition is_lower_alpha : ascii -> bool := in_range 97 122.
Definition is_alpha (c : ascii) : bool := is_upper_alpha c || is_lower_alpha c.
Definition is_digit : ascii -> bool := in_range 48 57.
Definition is_octal_digit : ascii -> bool := in_range 48 55.
Definition is_alphanumeric (c : ascii) : bool := is_alpha c || is_digit c.
Definition is_hex_digit (c : ascii) : bool :=
  is_digit c || in_range 65 70 c || in_range 97 102 c.
Definition is_ascii (c : ascii) : bool := (code c <=? 127)%N.

Definition to_lower (c : ascii) : ascii :=
  if is_upper_alpha c then ascii_of_N (code c + 32) else c.

(** The value of a digit in any radix up to 16. *)
Definition digit_value (c : ascii) : N :=
  if is_digit c then code c - 48
  else if in_range 65 70 c then code c - 55
  else code c - 87.

Fixpoint all (p : ascii -> bool) (s : string) : bool :=
  match s with
  | EmptyString => true
  | String c s' => p c && all p s'
  end.

Fixpoint any (p : ascii -> bool) (s : string) : bool :=
  match s with
  | EmptyString => false
  | String c s' => p c || any p s'
  end.

Fixpoint ascii_lowercase (s : string) : string :=
  match s with
  | EmptyString => EmptyString
  | String c s' => String (to_lower c) (ascii_lowercase s')
  end.

(** The mathematical integer a string of radix-[R] digits denotes. *)
Fixpoint number_acc (R : N) (acc : N) (s : string) : N :=
  match s with
  | EmptyString => acc
  | String c s' => number_acc R (acc * R + digit_value c) s'
  end.
Definition number (R : N) (s : string) : N := number_acc R 0 s.

Definition decimal (n : N) : string :=
  DecimalString.NilZero.string_of_uint (N.to_uint n).
Definition hexadecimal (n : N) : string :=
  HexadecimalString.NilZero.string_of_uint (N.to_hex_uint n).

Definition hex_upper (n : N) : ascii :=
  if (n <? 10)%N then ascii_of_N (48 + n) else ascii_of_N (55 + n).

(** *** Input clean-up *)

Fixpoint strip_leading (s : string) : string :=
  match s with
  | EmptyString => EmptyString
  | String c s' => if is_c0_control_or_space c then strip_leading s' else s
  end.

Fixpoint strip_trailing (s : string) : string :=
  match s with
  | EmptyString => EmptyString
  | String c s' =>
      match strip_trailing s' with
      | EmptyString =>
          if is_c0_control_or_space c then EmptyString
          else String c EmptyString
      | t => String c t
      end
  end.

Fixpoint remove_tab_newline (s : string) : string :=
  match s with
  | EmptyString => EmptyString
  | String c s' =>
      if is_tab_or_newline c then remove_tab_newline s'
      else String c (remove_tab_newline s')
  end.

Definition clean (input : string) : string :=
  remove_tab_newline (strip_trailing (strip_leading input)).

(** *** Scheme start state and scheme state

    The result is the scheme (lower-cased) and what follows the ":";
    [None] is the no-scheme state, a failure when there is no base. *)

Definition is_scheme_char (c : ascii) : bool :=
  is_alphanumeric c || (c == "+") || (c == "-") || (c == ".").

Fixpoint scheme_state (s : string) : option (string * string) :=
  match s with
  | EmptyString => None
  | String c s' =>
      if is_scheme_char c then
        match scheme_state s' with
        | Some (buffer, remaining) => Some (String (to_lower c) buffer, remaining)
        | None => None
        end
      else if c == ":" then Some (EmptyString, s')
      else None
  end.

Definition scheme_start_state (s : string) : option (string * string) :=
  match s with
  | EmptyString => None
  | String c _ => if is_alpha c then scheme_state s else None
  end.

Definition is_special (scheme : string) : bool :=
  String.eqb scheme "ftp" || String.eqb scheme "file" ||
  String.eqb scheme "http" || String.eqb scheme "https" ||
  String.eqb scheme "ws" || String.eqb scheme "wss".

Definition default_port (scheme : string) : option N :=
  if String.eqb scheme "ftp" then Some 21%N
  else if String.eqb scheme "http" then Some 80%N
  else if String.eqb scheme "https" then Some 443%N
  else if String.eqb scheme "ws" then Some 80%N
  else if String.eqb scheme "wss" then Some 443%N
  else None.

(** *** Hosts *)

Inductive Host : Type :=
| domain (name : string)
| ipv4 (address : N)
| ipv6 (pieces : list N)
| opaque (name : string)
| empty_host.

Definition is_forbidden_host_code_point (c : ascii) : bool :=
  (code c =? 0)%N || is_tab_or_newline c || (c == " ") || (c == "#") ||
  (c == "/") || (c == ":") || (c == "<") || (c == ">") || (c == "?") ||
  (c == "@") || (c == "[") || (c == "\") || (c == "]") || (c == "^") ||
  (c == "|").

Definition is_forbidden_domain_code_point (c : ascii) : bool :=
  is_forbidden_host_code_point c || is_c0_control c || (c == "%") ||
  (code c =? 127)%N.

(** UTF-8 bytes of a string of code points below U+0100. *)
Fixpoint utf8_encode (s : string) : string :=
  match s with
  | EmptyString => EmptyString
  | String c s' =>
      if is_ascii c then String c (utf8_encode s')
      else String (ascii_of_N (192 + code c / 64))
             (String (ascii_of_N (128 + code c mod 64)) (utf8_encode s'))
  end.

Fixpoint percent_decode (s : string) : string :=
  match s with
  | EmptyString => EmptyString
  | String c s' =>
      if c == "%" then
        match s' with
        | String h (String l s'') =>
            if is_hex_digit h && is_hex_digit l
            then String (ascii_of_N (16 * digit_value h + digit_value l))
                   (percent_decode s'')
            else String c (percent_decode s')
        | _ => String c (percent_decode s')
        end
      else String c (percent_decode s')
  end.

(** Percent-encoding of the UTF-8 bytes with the C0 control percent-encode
    set: C0 controls and everything above U+007E. *)
Fixpoint percent_encode_c0 (bytes : string) : string :=
  match bytes with
  | EmptyString => EmptyString
  | String b bytes' =>
      if is_c0_control b || (126 <? code b)%N
      then String "%" (String (hex_upper (code b / 16))
             (String (hex_upper (code b mod 16)) (percent_encode_c0 bytes')))
      else String b (percent_encode_c0 bytes')
  end.

Definition opaque_host_parse (input : string) : option Host :=
  if any is_forbidden_host_code_point input then None
  else Some (opaque (percent_encode_c0 (utf8_encode input))).

(** **** IPv4 *)

Definition ipv4_number_parse (input : string) : option N :=
  match input with
  | EmptyString => None
  | String c0 (String c1 rest) =>
      if (c0 == "0") && ((c1 == "x") || (c1 == "X")) then
        if all is_hex_digit rest then Some (number 16 rest) else None
      else if c0 == "0" then
        if all is_octal_digit (String c1 rest)
        then Some (number 8 (String c1 rest)) else None
      else if all is_digit input then Some (number 10 input) else None
  | String c0 EmptyString =>
      if is_digit c0 then Some (number 10 input) else None
  end.

(** The parts of a dotted name, a single trailing empty part dropped
    (unless it is the only part). *)
Definition drop_trailing_empty (parts : list string) : list string :=
  match rev parts with
  | EmptyString :: (_ :: _) as others => rev others
  | _ => parts
  end.

Definition ends_in_a_number (input : string) : bool :=
  let parts := JS.split "." input in
  match rev parts with
  | [EmptyString] => false
  | ends =>
      let last :=
        match ends with
        | EmptyString :: l :: _ => l
        | l :: _ => l
        | [] => EmptyString
        end in
      (negb (JS.falsy last) && all is_digit last) ||
      match ipv4_number_parse last with
      | Some _ => true
      | None => false
      end
  end.

Fixpoint ipv4_numbers (parts : list string) : option (list N) :=
  match parts with
  | [] => Some []
  | part :: parts' =>
      match ipv4_number_parse part, ipv4_numbers parts' with
      | Some n, Some ns => Some (n :: ns)
      | _, _ => None
      end
  end.

(** [ipv4 += n * 256^(3 - counter)] over all numbers but the last. *)
Fixpoint ipv4_sum (numbers : list N) (counter : nat) : N :=
  match numbers with
  | [] => 0
  | n :: ns => (n * 256 ^ N.of_nat (3 - counter) + ipv4_sum ns (S counter))%N
  end.

Definition ipv4_parse (input : string) : option N :=
  let parts := drop_trailing_empty (JS.split "." input) in
  if Nat.ltb 4 (List.length parts) then None
  else
    match ipv4_numbers parts with
    | None => None
    | Some numbers =>
        let last := List.last numbers 0%N in
        let init := List.removelast numbers in
        if existsb (fun n => (255 <? n)%N) init then None
        else if (256 ^ N.of_nat (5 - List.length numbers) <=? last)%N
        then None
        else Some (last + ipv4_sum init 0)%N
    end.

Definition ipv4_serialize (address : N) : string :=
  decimal (address / 16777216 mod 256) ++ "." ++
  decimal (address / 65536 mod 256) ++ "." ++
  decimal (address / 256 mod 256) ++ "." ++
  decimal (address mod 256).

(** **** IPv6 *)

Fixpoint set_piece (address : list N) (index : nat) (value : N) : list N :=
  match address, index with
  | [], _ => []
  | _ :: rest, 0 => value :: rest
  | piece :: rest, S index' => piece :: set_piece rest index' value
  end.

Definition piece (address : list N) (index : nat) : N := nth index address 0%N.

(** Up to [max] hexadecimal digits: their value, how many, and the rest. *)
Fixpoint read_hex (max : nat) (s : string) (value : N) (length : nat)
  : N * nat * string :=
  match max with
  | 0 => (value, length, s)
  | S max' =>
      match s with
      | EmptyString => (value, length, s)
      | String c s' =>
          if is_hex_digit c
          then read_hex max' s' (value * 16 + digit_value c) (S length)
          else (value, length, s)
      end
  end.

(** One decimal part of an embedded IPv4 address: no leading zero, at most
    255. *)
Fixpoint ipv4_piece (s : string) (ipv4Piece : option N)
  : option (option N * string) :=
  match s with
  | EmptyString => Some (ipv4Piece, s)
  | String c s' =>
      if is_digit c then
        match ipv4Piece with
        | None => ipv4_piece s' (Some (digit_value c))
        | Some 0%N => None
        | Some p =>
            let p' := (p * 10 + digit_value c)%N in
            if (255 <? p')%N then None else ipv4_piece s' (Some p')
        end
      else Some (ipv4Piece, s)
  end.

Fixpoint ipv6_ipv4_loop (fuel : nat) (s : string) (address : list N)
  (pieceIndex numbersSeen : nat) : option (list N * nat) :=
  match s with
  | EmptyString =>
      if Nat.eqb numbersSeen 4 then Some (address, pieceIndex) else None
  | String c s' =>
      match fuel with
      | 0 => None
      | S fuel' =>
          let at_number :=
            if Nat.ltb 0 numbersSeen then
              if (c == ".") && Nat.ltb numbersSeen 4 then Some s' else None
            else Some s in
          match at_number with
          | Some (String d _ as s1) =>
              if is_digit d then
                match ipv4_piece s1 None with
                | Some (Some ipv4Piece, s2) =>
                    let address' :=
                      set_piece address pieceIndex
                        (piece address pieceIndex * 256 + ipv4Piece)%N in
                    let numbersSeen' := S numbersSeen in
                    let pieceIndex' :=
                      if Nat.eqb numbersSeen' 2 || Nat.eqb numbersSeen' 4
                      then S pieceIndex else pieceIndex in
                    ipv6_ipv4_loop fuel' s2 address' pieceIndex' numbersSeen'
                | _ => None
                end
              else None
          | _ => None
          end
      end
  end.

Fixpoint ipv6_loop (fuel : nat) (s : string) (address : list N)
  (pieceIndex : nat) (compress : option nat)
  : option (list N * nat * option nat) :=
  match s with
  | EmptyString => Some (address, pieceIndex, compress)
  | String c s' =>
      match fuel with
      | 0 => None
      | S fuel' =>
          if Nat.eqb pieceIndex 8 then None
          else if c == ":" then
            match compress with
            | Some _ => None
            | None =>
                ipv6_loop fuel' s' address (S pieceIndex) (Some (S pieceIndex))
            end
          else
            let '(value, length, rest) := read_hex 4 s 0%N 0 in
            match rest with
            | EmptyString =>
                Some (set_piece address pieceIndex value, S pieceIndex, compress)
            | String r rest' =>
                if r == "." then
                  if Nat.eqb length 0 then None
                  else if Nat.ltb 6 pieceIndex then None
                  else
                    match ipv6_ipv4_loop (S (String.length s)) s address
                            pieceIndex 0 with
                    | Some (address', pieceIndex') =>
                        Some (address', pieceIndex', compress)
                    | None => None
                    end
                else if r == ":" then
                  match rest' with
                  | EmptyString => None
                  | _ =>
                      ipv6_loop fuel' rest' (set_piece address pieceIndex value)
                        (S pieceIndex) compress
                  end
                else None
            end
      end
  end.

Fixpoint ipv6_swap (address : list N) (pieceIndex swaps compress : nat)
  : list N :=
  match swaps, pieceIndex with
  | S swaps', S pieceIndex' =>
      let other := compress + swaps - 1 in
      let a := piece address pieceIndex in
      let b := piece address other in
      ipv6_swap (set_piece (set_piece address pieceIndex b) other a)
        pieceIndex' swaps' compress
  | _, _ => address
  end.

Definition ipv6_parse (input : string) : option (list N) :=
  let address := repeat 0%N 8 in
  let start :=
    match input with
    | String c rest =>
        if c == ":" then
          match rest with
          | String c' rest' =>
              if c' == ":" then Some (rest', 1, Some 1) else None
          | EmptyString => None
          end
        else Some (input, 0, None)
    | EmptyString => Some (input, 0, None)
    end in
  match start with
  | None => None
  | Some (s, pieceIndex, compress) =>
      match ipv6_loop (S (String.length s)) s address pieceIndex compress with
      | None => None
      | Some (address, pieceIndex, Some compress) =>
          Some (ipv6_swap address 7 (pieceIndex - compress) compress)
      | Some (address, pieceIndex, None) =>
          if Nat.eqb pieceIndex 8 then Some address else None
      end
  end.

Fixpoint zero_run (pieces : list N) : nat :=
  match pieces with
  | 0%N :: rest => S (zero_run rest)
  | _ => 0
  end.

(** Start and length of the first longest run of at least two zero pieces. *)
Fixpoint find_compress (pieces : list N) (index : nat)
  (best : option (nat * nat)) : option (nat * nat) :=
  match pieces with
  | [] => best
  | _ :: rest =>
      let run := zero_run pieces in
      let longest := match best with Some (_, l) => l | None => 1 end in
      find_compress rest (S index)
        (if Nat.ltb longest run then Some (index, run) else best)
  end.

Fixpoint ipv6_serialize_from (pieces : list N) (pieceIndex : nat)
  (compress : option nat) (ignore0 : bool) : string :=
  match pieces with
  | [] => EmptyString
  | p :: rest =>
      if ignore0 && (p =? 0)%N
      then ipv6_serialize_from rest (S pieceIndex) compress true
      else if match compress with
              | Some k => Nat.eqb k pieceIndex
              | None => false
              end
      then (if Nat.eqb pieceIndex 0 then "::" else ":") ++
           ipv6_serialize_from rest (S pieceIndex) compress true
      else hexadecimal p ++ (if Nat.eqb pieceIndex 7 then "" else ":") ++
           ipv6_serialize_from rest (S pieceIndex) compress false
  end.

Definition ipv6_serialize (address : list N) : string :=
  ipv6_serialize_from address 0
    (option_map fst (find_compress address 0 None)) false.

(** **** Host parser and serializer *)

Definition last_is (x : ascii) (s : string) : bool :=
  match String.get (String.length s - 1) s with
  | Some c => c == x
  | None => false
  end.

Definition has_xn_label (name : string) : bool :=
  existsb (fun label => JS.startsWith (ascii_lowercase label) "xn--")
    (JS.split "." name).

Definition host_serialize (h : Host) : string :=
  match h with
  | domain name => name
  | ipv4 address => ipv4_serialize address
  | ipv6 address => "[" ++ ipv6_serialize address ++ "]"
  | opaque name => name
  | empty_host => EmptyString
  end.

Section Parser.

(** Unicode ToASCII on the UTF-8 bytes of a domain, for the domains outside
    the ASCII fast path. *)
Variable unicode_ToASCII : string -> option string.

Definition domain_to_ASCII (bytes : string) : option string :=
  let result :=
    if all is_ascii bytes && negb (has_xn_label bytes)
    then Some (ascii_lowercase bytes)
    else unicode_ToASCII bytes in
  match result with
  | None => None
  | Some asciiDomain =>
      if JS.falsy asciiDomain then None
      else if any is_forbidden_domain_code_point asciiDomain then None
      else Some asciiDomain
  end.

Definition host_parse (isOpaque : bool) (input : string) : option Host :=
  if JS.startsWith input "[" then
    if last_is "]" input then
      match ipv6_parse (JS.slice_0_m1 (String.substring 1 (String.length input) input)) with
      | Some address => Some (ipv6 address)
      | None => None
      end
    else None
  else if isOpaque then opaque_host_parse input
  else
    match domain_to_ASCII (percent_decode (utf8_encode input)) with
    | None => None
    | Some asciiDomain =>
        if ends_in_a_number asciiDomain then
          match ipv4_parse asciiDomain with
          | Some address => Some (ipv4 address)
          | None => None
          end
        else Some (domain asciiDomain)
    end.

(** *** The URL record and the states after the scheme *)

Record url_record : Type := mk_url {
  url_scheme : string;
  url_host : option Host;   (* [None] is the null host *)
  url_port : option N       (* [None] is the null port *)
}.

Definition is_slash (c : ascii) : bool := (c == "/") || (c == "\").

(** Where the authority, the host and the port end: EOF, "/", "?", "#", and
    "\" in a special URL. *)
Definition ends_authority (special : bool) (c : ascii) : bool :=
  (c == "/") || (c == "?") || (c == "#") || (special && (c == "\")).

Fixpoint authority_of (special : bool) (s : string) : string :=
  match s with
  | EmptyString => EmptyString
  | String c s' =>
      if ends_authority special c then EmptyString
      else String c (authority_of special s')
  end.

(** Authority state: the buffer is cleared at every "@"; [None] when no "@"
    was seen. *)
Fixpoint after_last_at (authority : string) : option string :=
  match authority with
  | EmptyString => None
  | String c s' =>
      match after_last_at s' with
      | Some buffer => Some buffer
      | None => if c == "@" then Some s' else None
      end
  end.

(** Host state: the buffer up to the first ":" outside brackets, and what
    follows that ":" if there is one. *)
Fixpoint host_state (insideBrackets : bool) (s : string)
  : string * option string :=
  match s with
  | EmptyString => (EmptyString, None)
  | String c s' =>
      if (c == ":") && negb insideBrackets then (EmptyString, Some s')
      else
        let inside :=
          if c == "[" then true
          else if c == "]" then false
          else insideBrackets in
        let '(buffer, after_colon) := host_state inside s' in
        (String c buffer, after_colon)
  end.

(** Port state; the outer [None] is failure, the inner one the null port. *)
Definition port_state (scheme buffer : string) : option (option N) :=
  if all is_digit buffer then
    if JS.falsy buffer then Some None
    else
      let port := number 10 buffer in
      if (65535 <? port)%N then None
      else
        match default_port scheme with
        | Some d => if (d =? port)%N then Some None else Some (Some port)
        | None => Some (Some port)
        end
  else None.

(** Authority state, host state and port state of a URL with scheme
    [scheme], entered at [s]. *)
Definition authority_state (scheme : string) (s : string)
  : option url_record :=
  let special := is_special scheme in
  let authority := authority_of special s in
  let '(atSignSeen, buffer) :=
    match after_last_at authority with
    | Some buffer => (true, buffer)
    | None => (false, authority)
    end in
  if atSignSeen && JS.falsy buffer then None
  else
    match host_state false buffer with
    | (buffer, Some after_colon) =>
        if JS.falsy buffer then None
        else
          match host_parse (negb special) buffer with
          | None => None
          | Some h =>
              match port_state scheme after_colon with
              | None => None
              | Some p => Some (mk_url scheme (Some h) p)
              end
          end
    | (buffer, None) =>
        if special && JS.falsy buffer then None
        else
          match host_parse (negb special) buffer with
          | None => None
          | Some h => Some (mk_url scheme (Some h) None)
          end
    end.

(** Special authority slashes state and special authority ignore slashes
    state: every leading "/" and "\" is skipped. *)
Fixpoint skip_slashes (s : string) : string :=
  match s with
  | EmptyString => EmptyString
  | String c s' => if is_slash c then skip_slashes s' else s
  end.

(** File host state: the buffer ends at EOF, "/", "\", "?" or "#". *)
Definition is_windows_drive_letter (buffer : string) : bool :=
  match buffer with
  | String c0 (String c1 EmptyString) =>
      is_alpha c0 && ((c1 == ":") || (c1 == "|"))
  | _ => false
  end.

Definition file_host_state (s : string) : option url_record :=
  let buffer := authority_of true s in
  if is_windows_drive_letter buffer then Some (mk_url "file" (Some empty_host) None)
  else if JS.falsy buffer then Some (mk_url "file" (Some empty_host) None)
  else
    match host_parse false buffer with
    | None => None
    | Some h =>
        let h := match h with
                 | domain name =>
                     if String.eqb name "localhost" then empty_host else h
                 | _ => h
                 end in
        Some (mk_url "file" (Some h) None)
    end.

(** File state and file slash state. *)
Definition file_state (s : string) : option url_record :=
  match s with
  | String c0 (String c1 s') =>
      if is_slash c0 && is_slash c1 then file_host_state s'
      else Some (mk_url "file" (Some empty_host) None)
  | _ => Some (mk_url "file" (Some empty_host) None)
  end.

(** The basic URL parser, without base URL, encoding or state override. *)
Definition basic_URL_parse (input : string) : option url_record :=
  match scheme_start_state (clean input) with
  | None => None
  | Some (scheme, remaining) =>
      if String.eqb scheme "file" then file_state remaining
      else if is_special scheme then authority_state scheme (skip_slashes remaining)
      else
        match remaining with
        | String c0 (String c1 s') =>
            if (c0 == "/") && (c1 == "/") then authority_state scheme s'
            else Some (mk_url scheme None None)
        | _ => Some (mk_url scheme None None)
        end
  end.

(** *** The getters of the [URL] object *)

Definition get_protocol (url : url_record) : string := url_scheme url ++ ":".

Definition get_host (url : url_record) : string :=
  match url_host url with
  | None => EmptyString
  | Some h =>
      match url_port url with
      | None => host_serialize h
      | Some p => host_serialize h ++ ":" ++ decimal p
      end
  end.

Definition get_port (url : url_record) : string :=
  match url_port url with
  | None => EmptyString
  | Some p => decimal p
  end.

(** [new URL(input)], [None] for the [TypeError]. *)
Definition URL_new (input : string) : option URL :=
  match basic_URL_parse input with
  | None => None
  | Some url => Some (mkURL (get_protocol url) (get_host url) (get_port url))
  end.

End Parser.

(** *** Classes of input used to state the properties of the validator *)

(** The substring of [s] before its first ":" (all of [s] when there is
    none). *)
Fixpoint before_first_colon (s : string) : string :=
  match s with
  | EmptyString => EmptyString
  | String c s' => if c == ":" then EmptyString else String c (before_first_colon s')
  end.

(** Host names written with lower-case letters, digits, "-" and ".": at
    least one ".", no "xn--" label, not ending in a number, and not starting
    with "http". *)
Definition is_plain_host_char (c : ascii) : bool :=
  is_lower_alpha c || is_digit c || (c == "-") || (c == ".").

Definition plain_host (h : string) : bool :=
  all is_plain_host_char h && any (fun c => c == ".") h &&
  negb (ends_in_a_number h) && negb (has_xn_label h) &&
  negb (JS.startsWith h "http").

(** The same names, a "." not required, for use in front of a port; the
    names of the special schemes are left out. *)
Definition plain_name (d : string) : bool :=
  all is_plain_host_char d && negb (JS.falsy d) &&
  negb (ends_in_a_number d) && negb (has_xn_label d) &&
  negb (JS.startsWith d "http") && negb (is_special d).

(** The origins [validateUrl] is shown to map to themselves: a plain host
    name, or a plain name with a port that is not the default port of
    "http". *)
Inductive canonical_origin : string -> Prop :=
| origin_host h :
    plain_host h = true -> canonical_origin h
| origin_host_port d p :
    plain_name d = true -> (p <=? 65535)%N = true -> (p =? 80)%N = false ->
    canonical_origin (d ++ ":" ++ decimal p).

Definition is_origin_char (c : ascii) : bool :=
  is_plain_host_char c || (c == ":").

Definition is_printable (c : ascii) : bool := negb (is_c0_control_or_space c).

(** A decimal numeral that is read back as the number it prints. *)
Definition decimal_ok (p : N) : bool :=
  all is_digit (decimal p) && (number 10 (decimal p) =? p)%N &&
  negb (JS.falsy (decimal p)).

(** [decimal_ok] checked for every number below [n], counting up. *)
Definition decimal_ok_below (n : N) : N * bool :=
  N.iter n (fun '(k, b) => (N.succ k, b && decimal_ok k)) (0%N, true).

(** A Unicode ToASCII that rejects every domain handed to it: enough to run
    the parser on inputs that stay on the ASCII path. *)
Definition no_unicode_ToASCII : string -> option string := fun _ => None.

End WHATWG.

(** ** Calls of [validateUrl], one rule per path through its body

    [validateUrl_call URL_new originParam service depth c]: the call
    [validateUrl(originParam, service)] completes with [c] after [depth]
    nested calls of itself. *)

Inductive validateUrl_call (URL_new : string -> option URL)
  : string -> string -> nat -> completion ValidationResult -> Prop :=
| call_netlify originParam service :
    switch service = case_netlify ->
    validateUrl_call URL_new originParam service 0
      (Return (success [originParam]))
| call_vercel originParam service :
    switch service = case_vercel ->
    validateUrl_call URL_new originParam service 0
      (Return (success ["vercel.app"; originParam]))
| call_custom_scheme originParam service :
    switch service = case_custom_scheme ->
    validateUrl_call URL_new originParam service 0
      (try_catch (custom_scheme_try URL_new originParam)
         (fun _ => Return (error "Invalid scheme.")))
| call_generic_return originParam service r :
    switch service = case_generic ->
    generic_try URL_new originParam = Return r ->
    validateUrl_call URL_new originParam service 0 (Return r)
| call_generic_retry originParam service e depth c :
    switch service = case_generic ->
    generic_try URL_new originParam = Throw e ->
    JS.startsWith originParam "http" = false ->
    validateUrl_call URL_new ("http://" ++ originParam) service depth c ->
    validateUrl_call URL_new originParam service (S depth) c
| call_generic_invalid originParam service e :
    switch service = case_generic ->
    generic_try URL_new originParam = Throw e ->
    JS.startsWith originParam "http" = true ->
    validateUrl_call URL_new originParam service 0
      (Return (error "Invalid URL."))
| call_default originParam service :
    switch service = case_default ->
    validateUrl_call URL_new originParam service 0
      (Return (error "Unknown type")).

(** ** The rest of the dashboard component

    The records hold the fields the component reads; an optional field or an
    array element that is missing is [None] (JavaScript's [undefined]). *)

Module AuthorizedOrigin.
Record t : Type := mk {
  id : string;
  service : string;
  params : list string
}.
End AuthorizedOrigin.

Module OAuthServiceProvider.
Record t : Type := mk {
  id : string;
  provider_name : string
}.
End OAuthServiceProvider.

Module OAuthClient.
Record t : Type := mk {
  id : string;
  client_name : string;
  client_id : string;
  provider_id : string
}.
End OAuthClient.

Module AppsAuthResponse.
Record t : Type := mk {
  authorized_redirect_origins : option (list AuthorizedOrigin.t);
  oauth_service_providers : option (list OAuthServiceProvider.t);
  oauth_clients : option (list OAuthClient.t)
}.
End AppsAuthResponse.

Module JSValue.

(** [array[i]] *)
Definition index {A : Type} (array : list A) (i : nat) : option A :=
  nth_error array i.

(** A value spliced into a template literal. *)
Definition template (v : option string) : string :=
  match v with
  | Some s => s
  | None => "undefined"
  end.

(** [array || []]: an array, even an empty one, is truthy. *)
Definition or_empty {A : Type} (array : option (list A)) : list A :=
  match array with
  | Some l => l
  | None => []
  end.

(** [s || fallback] for a string that may be undefined. *)
Definition or_else (s : option string) (fallback : string) : string :=
  match s with
  | Some (String c s') => String c s'
  | _ => fallback
  end.

(** [a !== b] for strings that may be undefined. *)
Definition strict_neq (a b : option string) : bool :=
  match a, b with
  | Some x, Some y => negb (String.eqb x y)
  | None, None => false
  | _, _ => true
  end.

End JSValue.

(** *** How an origin is shown *)

Definition originDisplay (origin : AuthorizedOrigin.t) : option string :=
  let params := AuthorizedOrigin.params origin in
  match switch (AuthorizedOrigin.service origin) with
  | case_generic => JSValue.index params 0
  | case_netlify => JSValue.index params 0
  | case_vercel => JSValue.index params 1
  | case_custom_scheme => Some (JSValue.template (JSValue.index params 0) ++ "://")
  | case_default => JSValue.index params 0
  end.

Definition originSource (origin : AuthorizedOrigin.t) : string :=
  let params := AuthorizedOrigin.params origin in
  match switch (AuthorizedOrigin.service origin) with
  | case_generic => "Website"
  | case_netlify => "Netlify site"
  | case_vercel =>
      if JSValue.strict_neq (JSValue.index params 0) (Some "vercel.app")
      then "Vercel project (" ++ JSValue.template (JSValue.index params 0) ++ ")"
      else "Vercel project"
  | case_custom_scheme => "Native app"
  | case_default => ""
  end.

Definition originInputLabel (service : string) : string :=
  match switch service with
  | case_generic => "Origin"
  | case_netlify => "Netlify site"
  | case_vercel => "Vercel project"
  | case_custom_scheme => "App scheme"
  | case_default => ""
  end.

Definition originInputPlaceholder (service : string) : string :=
  match switch service with
  | case_generic => "https://example.com"
  | case_netlify => "netlify-site-name"
  | case_vercel => "vercel-project-name"
  | case_custom_scheme => "app-scheme://"
  | case_default => ""
  end.

(** *** The submit handlers of the two forms

    A handler is the sequence of the calls it makes, in order.  The reply of
    the backend to a request and [messageFromInstantError] are given from
    outside; toasts, logging and the callbacks of the parent are taken to
    complete normally. *)

Module AddOriginRequest.
Record t : Type := mk {
  token : string;
  appId : string;
  service : string;
  params : list string
}.
End AddOriginRequest.

Module AddClientRequest.
Record t : Type := mk {
  token : string;
  appId : string;
  providerId : string;
  clientName : string;
  clientId : string;
  clientSecret : string;
  authorizationEndpoint : string;
  tokenEndpoint : string;
  discoveryEndpoint : string
}.
End AddClientRequest.

(** What a [catch] clause of a handler receives: an exception of the
    validator or the rejection of a request. *)
Inductive thrown (InstantError : Type) : Type :=
| thrown_exn (e : exn)
| thrown_rejection (e : InstantError).
Arguments thrown_exn {InstantError} e.
Arguments thrown_rejection {InstantError} e.

Inductive event (InstantError : Type) : Type :=
| preventDefault
| setIsLoading (loading : bool)
| errorToast (message : string)
| console_error (e : thrown InstantError)
| addAuthorizedOrigin (request : AddOriginRequest.t)
| onAddOrigin (origin : AuthorizedOrigin.t)
| addClient (request : AddClientRequest.t)
| onAddClient (client : OAuthClient.t).
Arguments preventDefault {InstantError}.
Arguments setIsLoading {InstantError} loading.
Arguments errorToast {InstantError} message.
Arguments console_error {InstantError} e.
Arguments addAuthorizedOrigin {InstantError} request.
Arguments onAddOrigin {InstantError} origin.
Arguments addClient {InstantError} request.
Arguments onAddClient {InstantError} client.

Module AuthorizedOriginsForm.
Section Handler.

Variable URL_new : string -> option URL.
Variable InstantError : Type.
Variable messageFromInstantError : thrown InstantError -> option string.
(** The reply to the POST: the created origin, or a rejection. *)
Variable reply : AddOriginRequest.t -> InstantError + AuthorizedOrigin.t.
(** [useContext(TokenContext)] and [app.id] *)
Variables (token appId : string).

(** The [catch] clause of [onSubmit]. *)
Definition onSubmit_catch (e : thrown InstantError) : list (event InstantError) :=
  [console_error e;
   errorToast (JSValue.or_else (messageFromInstantError e) "Error creating origin.")].

(** [onSubmit] with the form state [url] and [service]. *)
Definition onSubmit (url service : string) : list (event InstantError) :=
  [preventDefault; setIsLoading true] ++
  match validateUrl URL_new url service with
  | Return (error message) => [errorToast message]
  | Return (success params) =>
      let request := AddOriginRequest.mk token appId service params in
      addAuthorizedOrigin request ::
      match reply request with
      | inr origin => [onAddOrigin origin]
      | inl e => onSubmit_catch (thrown_rejection e)
      end
  | Throw e => onSubmit_catch (thrown_exn e)
  end ++
  [setIsLoading false].

End Handler.
End AuthorizedOriginsForm.

Module AddClientForm.
Section Handler.

Variable InstantError : Type.
Variable messageFromInstantError : thrown InstantError -> option string.
(** The reply to the POST: the created client, or a rejection. *)
Variable reply : AddClientRequest.t -> InstantError + OAuthClient.t.
(** [useContext(TokenContext)], [app.id] and [provider.id] *)
Variables (token appId providerId : string).
(** The form state. *)
Variables (clientName clientId clientSecret : string).
Variables (authorizationEndpoint tokenEndpoint discoveryEndpoint : string).

Definition validationError : option string :=
  if JS.falsy clientName then Some "Missing unique name"
  else if JS.falsy clientId then Some "Missing client id"
  else if JS.falsy clientSecret then Some "Missing client secret"
  else None.

Definition onSubmit : list (event InstantError) :=
  preventDefault ::
  match validationError with
  | Some (String c err) => [errorToast (String c err)]
  | _ =>
      let request :=
        AddClientRequest.mk token appId providerId clientName clientId
          clientSecret authorizationEndpoint tokenEndpoint discoveryEndpoint in
      [setIsLoading true; addClient request] ++
      match reply request with
      | inr client => [onAddClient client]
      | inl e =>
          [console_error (thrown_rejection e);
           errorToast
             (JSValue.or_else (messageFromInstantError (thrown_rejection e))
                "Error creating client.")]
      end ++
      [setIsLoading false]
  end.

End Handler.
End AddClientForm.

(** *** The updates [AppAuth] applies to the loaded data *)

Module AppAuth.

Import AppsAuthResponse.

Definition handleAddOrigin (data : AppsAuthResponse.t)
  (origin : AuthorizedOrigin.t) : AppsAuthResponse.t :=
  mk (Some (origin :: JSValue.or_empty (authorized_redirect_origins data)))
     (oauth_service_providers data) (oauth_clients data).

Definition handleRemoveOrigin (data : AppsAuthResponse.t)
  (origin : AuthorizedOrigin.t) : AppsAuthResponse.t :=
  mk (option_map
        (filter (fun o => negb (String.eqb (AuthorizedOrigin.id o)
                                  (AuthorizedOrigin.id origin))))
        (authorized_redirect_origins data))
     (oauth_service_providers data) (oauth_clients data).

Definition handleAddProvider (data : AppsAuthResponse.t)
  (provider : OAuthServiceProvider.t) : AppsAuthResponse.t :=
  mk (authorized_redirect_origins data)
     (Some (provider :: JSValue.or_empty (oauth_service_providers data)))
     (oauth_clients data).

Definition handleAddClient (data : AppsAuthResponse.t)
  (client : OAuthClient.t) : AppsAuthResponse.t :=
  mk (authorized_redirect_origins data) (oauth_service_providers data)
     (Some (client :: JSValue.or_empty (oauth_clients data))).

Definition handleDeleteClient (data : AppsAuthResponse.t)
  (client : OAuthClient.t) : AppsAuthResponse.t :=
  mk (authorized_redirect_origins data) (oauth_service_providers data)
     (Some (filter (fun c => negb (String.eqb (OAuthClient.id c)
                                     (OAuthClient.id client)))
              (JSValue.or_empty (oauth_clients data)))).

Definition googleProvider (data : AppsAuthResponse.t)
  : option OAuthServiceProvider.t :=
  match oauth_service_providers data with
  | Some providers =>
      find (fun p => String.eqb (OAuthServiceProvider.provider_name p) "google")
        providers
  | None => None
  end.

(** The [clients] handed to [GoogleClients]. *)
Definition googleClients (data : AppsAuthResponse.t)
  (provider : OAuthServiceProvider.t) : list OAuthClient.t :=
  JSValue.or_empty
    (option_map
       (filter (fun c => String.eqb (OAuthClient.provider_id c)
                           (OAuthServiceProvider.id provider)))
       (oauth_clients data)).

(** [googleProvider && data.oauth_clients?.length]: whether the redirect
    origins are rendered. *)
Definition showsAuthorizedOrigins (data : AppsAuthResponse.t) : bool :=
  match googleProvider data, oauth_clients data with
  | Some _, Some (_ :: _) => true
  | _, _ => false
  end.

End AppAuth.

(** *** Schemes as the parser writes them *)

Definition is_lower_scheme_char (c : ascii) : bool :=
  WHATWG.is_scheme_char c && negb (WHATWG.is_upper_alpha c).

(** A lower-case letter followed by lower-case letters, digits, "+", "-"
    and ".". *)
Definition canonical_scheme (scheme : string) : bool :=
  match scheme with
  | EmptyString => false
  | String c rest =>
      WHATWG.is_lower_alpha c && WHATWG.all is_lower_scheme_char rest
  end.

(** *** The text of a host *)

(** The characters that would start a path, a query or a fragment, end the
    user information, or break the text: "/", "\", "?", "#", "@" and the
    space. *)
Definition is_url_delimiter (c : ascii) : bool :=
  Ascii.eqb c "/" || Ascii.eqb c "\" || Ascii.eqb c "?" || Ascii.eqb c "#" ||
  Ascii.eqb c "@" || Ascii.eqb c " ".

Definition is_host_text (c : ascii) : bool := negb (is_url_delimiter c).

(** *** Origins in the form the parser gives them *)

(** Printable text that ends neither the authority of a URL nor its user
    information: no C0 control, space, "/", "\", "?", "#" or "@". *)
Definition is_authority_text (c : ascii) : bool :=
  is_host_text c && negb (WHATWG.is_c0_control_or_space c).

(** Authority text other than ":", "[" and "]": what the name of a host is
    written with, unless it is an IPv6 address. *)
Definition is_name_char (c : ascii) : bool :=
  is_authority_text c &&
  negb (Ascii.eqb c ":" || Ascii.eqb c "[" || Ascii.eqb c "]").

Definition is_hex_or_colon (c : ascii) : bool :=
  WHATWG.is_hex_digit c || Ascii.eqb c ":".

(** The three ways a serialized host is written. *)
Inductive host_text : string -> Prop :=
| text_name name :
    WHATWG.all is_name_char name = true -> host_text name
| text_ipv4 address :
    host_text (WHATWG.ipv4_serialize address)
| text_ipv6 inner :
    WHATWG.all is_hex_or_colon inner = true -> host_text ("[" ++ inner ++ "]").

(** A host in the parser's own form: parsed as the host of a special URL and
    serialized again, it is unchanged. *)
Definition stable_host (unicode_ToASCII : string -> option string)
  (d : string) : bool :=
  match WHATWG.host_parse unicode_ToASCII false d with
  | Some h => String.eqb (WHATWG.host_serialize h) d
  | None => false
  end.

(** "http", "https", "ftp", "ws" and "wss": the schemes whose URLs need a
    host. *)
Definition needs_host (scheme : string) : bool :=
  WHATWG.is_special scheme && negb (String.eqb scheme "file").

(** A port as the parser prints it, other than the default port of "http". *)
Definition stable_port (digits : string) : bool :=
  let p := WHATWG.number 10 digits in
  String.eqb (WHATWG.decimal p) digits && (p <=? 65535)%N && negb (p =? 80)%N.

(** An origin in the form the validator gives it and that it reads back: it
    does not start with "http"; the part before the first ":" outside
    brackets is a stable host; what follows that ":", if there is one, is a
    stable port, and the host in front of a port is not the name of a scheme
    that needs a host. *)
Definition stable_origin (unicode_ToASCII : string -> option string)
  (h : string) : bool :=
  negb (JS.startsWith h "http") &&
  match WHATWG.host_state false h with
  | (d, None) => stable_host unicode_ToASCII d
  | (d, Some digits) =>
      stable_host unicode_ToASCII d && stable_port digits &&
      negb (needs_host (WHATWG.ascii_lowercase d))
  end.

(** The validated parameters that validate to themselves again when the
    origin is typed in as it is shown: every netlify and vercel origin, a
    custom scheme that needs no host, and a generic origin that is stable. *)
Definition revalidates (unicode_ToASCII : string -> option string)
  (service : string) (validated : list string) : bool :=
  match switch service, validated with
  | case_netlify, _ => true
  | case_vercel, _ => true
  | case_custom_scheme, [scheme] => negb (needs_host scheme)
  | case_generic, [h] => stable_origin unicode_ToASCII h
  | _, _ => false
  end.

(** A port number read as a host: the text of a number up to 65535 is an IPv4
    address, in every step of the host parser that does not involve Unicode
    ToASCII. *)
Definition decimal_host_ok (p : N) : bool :=
  let text := WHATWG.decimal p in
  negb (JS.startsWith text "[") &&
  String.eqb (WHATWG.percent_decode (WHATWG.utf8_encode text)) text &&
  WHATWG.all WHATWG.is_ascii text && negb (WHATWG.has_xn_label text) &&
  String.eqb (WHATWG.ascii_lowercase text) text && negb (JS.falsy text) &&
  negb (WHATWG.any WHATWG.is_forbidden_domain_code_point text) &&
  WHATWG.ends_in_a_number text &&
  match WHATWG.ipv4_parse text with
  | Some address =>
      negb (JS.falsy (WHATWG.ipv4_serialize address)) &&
      negb (Nat.eqb (List.length (JS.split "." (WHATWG.ipv4_serialize address))) 1)
  | None => false
  end.

(** [check] evaluated on every number below [n], counting up. *)
Definition checked_below (check : N -> bool) (n : N) : N * bool :=
  N.iter n (fun '(k, b) => (N.succ k, b && check k)) (0%N, true).

(** ** The sandbox page ([pages/play/googleloginbutton.tsx]) *)

Module Sandbox.

Record todo : Type := mk_todo { todo_id : string }.
Record goal : Type := mk_goal { goal_id : string; todos : list todo }.

(** The one transaction step the "Clear Data" button builds:
    [tx.<namespace>[id].delete()]. *)
Inductive tx_step : Type :=
| tx_delete (namespace id : string).

Definition tx_step_dec (a b : tx_step) : {a = b} + {a <> b}.
Proof. decide equality; apply string_dec. Defined.

(** The argument of [transact] in the click handler of "Clear Data", for the
    [data.goals] of the query. *)
Definition clearData (goals : list goal) : list tx_step :=
  let goalIds := map goal_id goals in
  let todoIds := concat (map (fun g => map todo_id (todos g)) goals) in
  map (fun id => tx_delete "goals" id) goalIds ++
  map (fun id => tx_delete "todos" id) todoIds.

End Sandbox.

(** * Properties *)

Section ValidatorFacts.

Variable URL_new : string -> option URL.

(** The body of [validateUrl], one level unfolded. *)
Lemma validateUrl_body originParam service :
  validateUrl URL_new originParam service =
  match switch service with
  | case_netlify => Return (success [originParam])
  | case_vercel => Return (success ["vercel.app"; originParam])
  | case_custom_scheme =>
      try_catch (custom_scheme_try URL_new originParam)
        (fun _ => Return (error "Invalid scheme."))
  | case_generic =>
      try_catch (generic_try URL_new originParam)
        (fun _ =>
           if JS.startsWith originParam "http"
           then Return (error "Invalid URL.")
           else validateUrl URL_new ("http://" ++ originParam) service)
  | case_default => Return (error "Unknown type")
  end.
Proof.
  funelim (validateUrl URL_new originParam service);
    repeat match goal with
           | H : switch _ = _ |- _ => rewrite H
           | H : generic_try _ _ = _ |- _ => rewrite H
           | H : JS.startsWith _ _ = _ |- _ => rewrite H
           end; reflexivity.
Qed.

Lemma retried_input_starts_with_http originParam :
  JS.startsWith ("http://" ++ originParam) "http" = true.
Proof. reflexivity. Qed.

(** The generic arm without the recursion: the retry is itself never
    retried. *)
Lemma validateUrl_generic originParam service :
  switch service = case_generic ->
  validateUrl URL_new originParam service =
  match generic_try URL_new originParam with
  | Return r => Return r
  | Throw _ =>
      if JS.startsWith originParam "http" then Return (error "Invalid URL.")
      else match generic_try URL_new ("http://" ++ originParam) with
           | Return r => Return r
           | Throw _ => Return (error "Invalid URL.")
           end
  end.
Proof.
  intros Hs. rewrite validateUrl_body, Hs. unfold try_catch.
  destruct (generic_try URL_new originParam); [reflexivity|].
  destruct (JS.startsWith originParam "http"); [reflexivity|].
  rewrite validateUrl_body, Hs. unfold try_catch.
  rewrite retried_input_starts_with_http. reflexivity.
Qed.

Lemma generic_try_inv originParam r :
  generic_try URL_new originParam = Return r ->
  exists url,
    URL_new originParam = Some url /\ r = success [host url] /\
    host url <> "" /\
    (List.length (JS.split "." (host url)) <> 1 \/ port url <> "").
Proof.
  unfold generic_try, new_URL.
  destruct (URL_new originParam) as [url|]; simpl; [|discriminate].
  destruct (JS.falsy (host url)) eqn:Hh; [discriminate|].
  assert (Hne : host url <> "") by (intros E; rewrite E in Hh; discriminate).
  destruct (Nat.eqb (List.length (JS.split "." (host url))) 1) eqn:Hl; simpl.
  - destruct (JS.falsy (port url)) eqn:Hp; [discriminate|].
    intros [= <-]. exists url. repeat split; auto.
    right. intros E; rewrite E in Hp; discriminate.
  - intros [= <-]. exists url. repeat split; auto.
    left. apply Nat.eqb_neq, Hl.
Qed.

Lemma generic_try_bare_host originParam url :
  URL_new originParam = Some url ->
  List.length (JS.split "." (host url)) = 1 ->
  port url = "" ->
  exists e, generic_try URL_new originParam = Throw e.
Proof.
  intros Hu Hl Hp. unfold generic_try, new_URL. rewrite Hu. simpl.
  destruct (JS.falsy (host url)); [eauto|].
  rewrite Hl, Hp. simpl. eauto.
Qed.

(** A call on an input that starts with "http" makes no nested call. *)
Lemma validateUrl_call_http originParam service depth c :
  validateUrl_call URL_new originParam service depth c ->
  JS.startsWith originParam "http" = true ->
  depth = 0.
Proof.
  intros Hcall Hhttp. destruct Hcall; congruence.
Qed.

Lemma validateUrl_call_sound originParam service depth c :
  validateUrl_call URL_new originParam service depth c ->
  c = validateUrl URL_new originParam service /\ depth <= 1.
Proof.
  induction 1 as [s k Hk|s k Hk|s k Hk|s k r Hk Hr|s k e n c Hk He Hh Hc IH
                 |s k e Hk He Hh|s k Hk];
    rewrite validateUrl_body, Hk; unfold try_catch;
    try (split; [reflexivity|lia]).
  - rewrite Hr. split; [reflexivity|lia].
  - rewrite He, Hh. destruct IH as [-> _]. split; [reflexivity|].
    apply validateUrl_call_http in Hc;
      [lia|apply retried_input_starts_with_http].
  - rewrite He, Hh. split; [reflexivity|lia].
Qed.

Lemma validateUrl_call_complete originParam service :
  exists depth,
    validateUrl_call URL_new originParam service depth
      (validateUrl URL_new originParam service).
Proof.
  funelim (validateUrl URL_new originParam service).
  - exists 0. now apply call_netlify.
  - exists 0. now apply call_vercel.
  - exists 0. now apply call_custom_scheme.
  - exists 0. now apply call_default.
  - exists 0. now apply call_generic_return.
  - exists 0. now apply call_generic_invalid with (e := e).
  - destruct H as [depth Hcall]. exists (S depth).
    now apply call_generic_retry with (e := e).
Qed.

(** Two completed calls on the same arguments agree. *)
Lemma validateUrl_call_functional originParam service depth1 c1 depth2 c2 :
  validateUrl_call URL_new originParam service depth1 c1 ->
  validateUrl_call URL_new originParam service depth2 c2 ->
  depth1 = depth2 /\ c1 = c2.
Proof.
  intros Hcall1. revert depth2 c2.
  induction Hcall1 as [s k Hk|s k Hk|s k Hk|s k r Hk Hr|s k e n c Hk He Hh Hc IH
                      |s k e Hk He Hh|s k Hk];
    intros depth2 c2 Hcall2; inversion Hcall2; subst;
    try congruence; try (split; congruence).
  match goal with
  | H : validateUrl_call _ ("http://" ++ _) _ _ _ |- _ =>
      destruct (IH _ _ H) as [-> ->]
  end.
  split; reflexivity.
Qed.

Lemma validateUrl_returns originParam service :
  exists r, validateUrl URL_new originParam service = Return r.
Proof.
  funelim (validateUrl URL_new originParam service); eauto.
  unfold try_catch. destruct (custom_scheme_try URL_new originParam); eauto.
Qed.

End ValidatorFacts.

(** ** Facts about the URL parser *)

Module WHATWGFacts.

Import WHATWG.

Local Infix "==" := Ascii.eqb (at level 70, no associativity).

(** Case analysis over the 256 code units. *)
Ltac by_code_unit c :=
  destruct c as [[|] [|] [|] [|] [|] [|] [|] [|]];
  vm_compute; try reflexivity; try discriminate; intros; try discriminate;
  auto.

Lemma all_impl (p q : ascii -> bool) s :
  (forall c, p c = true -> q c = true) -> all p s = true -> all q s = true.
Proof.
  intros Hpq. induction s as [|c s IH]; simpl; [reflexivity|].
  intros [Hc Hs]%andb_prop. rewrite (Hpq c Hc), (IH Hs). reflexivity.
Qed.

Lemma all_app p s t : all p (s ++ t) = all p s && all p t.
Proof.
  induction s as [|c s IH]; simpl; [reflexivity|].
  rewrite IH, andb_assoc. reflexivity.
Qed.

Lemma slice_0_m1_colon s : JS.slice_0_m1 (s ++ ":") = s.
Proof.
  induction s as [|c s IH]; [reflexivity|].
  simpl. rewrite IH. destruct s; reflexivity.
Qed.

(** *** The scheme is the lower-cased text before the first ":" *)

Lemma scheme_char_not_colon c : is_scheme_char c = true -> (c == ":") = false.
Proof. by_code_unit c. Qed.

Lemma scheme_state_before_colon s scheme remaining :
  scheme_state s = Some (scheme, remaining) ->
  scheme = ascii_lowercase (before_first_colon s).
Proof.
  revert scheme. induction s as [|c s IH]; simpl; intros scheme; [discriminate|].
  destruct (is_scheme_char c) eqn:Hc.
  - rewrite (scheme_char_not_colon c Hc).
    destruct (scheme_state s) as [[buffer rest]|]; [|discriminate].
    intros [= <- <-]. simpl. f_equal. now apply IH.
  - destruct (c == ":"); [|discriminate]. now intros [= <- <-].
Qed.

Section Parser.

Variable unicode_ToASCII : string -> option string.

Lemma authority_state_scheme scheme s url :
  authority_state unicode_ToASCII scheme s = Some url -> url_scheme url = scheme.
Proof.
  unfold authority_state.
  destruct (after_last_at _) as [buffer|].
  - destruct (true && JS.falsy buffer); [discriminate|].
    destruct (host_state false buffer) as [b [after|]].
    + destruct (JS.falsy b); [discriminate|].
      destruct (host_parse _ _ _); [|discriminate].
      destruct (port_state _ _); [|discriminate]. now intros [= <-].
    + destruct (_ && _); [discriminate|].
      destruct (host_parse _ _ _); [|discriminate]. now intros [= <-].
  - destruct (false && _); [discriminate|].
    destruct (host_state false _) as [b [after|]].
    + destruct (JS.falsy b); [discriminate|].
      destruct (host_parse _ _ _); [|discriminate].
      destruct (port_state _ _); [|discriminate]. now intros [= <-].
    + destruct (_ && _); [discriminate|].
      destruct (host_parse _ _ _); [|discriminate]. now intros [= <-].
Qed.

Lemma file_state_scheme s url :
  file_state unicode_ToASCII s = Some url -> url_scheme url = "file".
Proof.
  assert (Hhost : forall t, file_host_state unicode_ToASCII t = Some url ->
                            url_scheme url = "file").
  { intros t. unfold file_host_state.
    destruct (is_windows_drive_letter _); [now intros [= <-]|].
    destruct (JS.falsy _); [now intros [= <-]|].
    destruct (host_parse _ _ _); [|discriminate]. now intros [= <-]. }
  unfold file_state. destruct s as [|c0 [|c1 s]]; try now intros [= <-].
  destruct (is_slash c0 && is_slash c1); [apply Hhost|now intros [= <-]].
Qed.

Lemma basic_URL_parse_scheme input url :
  basic_URL_parse unicode_ToASCII input = Some url ->
  url_scheme url = ascii_lowercase (before_first_colon (clean input)).
Proof.
  unfold basic_URL_parse, scheme_start_state.
  destruct (clean input) as [|c s] eqn:Hclean; [discriminate|].
  destruct (is_alpha c); [|discriminate].
  destruct (scheme_state (String c s)) as [[scheme remaining]|] eqn:Hscheme;
    [|discriminate].
  apply scheme_state_before_colon in Hscheme. rewrite <- Hscheme.
  destruct (String.eqb scheme "file") eqn:Hfile.
  - apply String.eqb_eq in Hfile. subst scheme. rewrite Hfile.
    apply file_state_scheme.
  - destruct (is_special scheme); [apply authority_state_scheme|].
    destruct remaining as [|c0 [|c1 r]]; try now intros [= <-].
    destruct ((c0 == "/") && (c1 == "/"));
      [apply authority_state_scheme|now intros [= <-]].
Qed.

(** [url.protocol.slice(0, -1)] of a parsed URL. *)
Lemma URL_new_scheme input url :
  URL_new unicode_ToASCII input = Some url ->
  JS.slice_0_m1 (protocol url) =
  ascii_lowercase (before_first_colon (clean input)).
Proof.
  unfold URL_new.
  destruct (basic_URL_parse unicode_ToASCII input) as [u|] eqn:Hu;
    [|discriminate].
  intros [= <-]. simpl. unfold get_protocol. rewrite slice_0_m1_colon.
  now apply basic_URL_parse_scheme.
Qed.

(** *** Parsing a plain host name *)

Lemma strip_trailing_id s : all is_printable s = true -> strip_trailing s = s.
Proof.
  induction s as [|c s IH]; simpl; [reflexivity|].
  intros [Hc Hs]%andb_prop. rewrite (IH Hs).
  destruct s; [|reflexivity].
  unfold is_printable in Hc. apply negb_true_iff in Hc. now rewrite Hc.
Qed.

Lemma strip_leading_id s : all is_printable s = true -> strip_leading s = s.
Proof.
  destruct s as [|c s]; simpl; [reflexivity|].
  intros [Hc _]%andb_prop.
  unfold is_printable in Hc. apply negb_true_iff in Hc. now rewrite Hc.
Qed.

Lemma printable_not_tab_newline c :
  is_printable c = true -> is_tab_or_newline c = false.
Proof. by_code_unit c. Qed.

Lemma remove_tab_newline_id s :
  all is_printable s = true -> remove_tab_newline s = s.
Proof.
  induction s as [|c s IH]; simpl; [reflexivity|].
  intros [Hc Hs]%andb_prop.
  rewrite (printable_not_tab_newline c Hc), (IH Hs). reflexivity.
Qed.

Lemma clean_id s : all is_printable s = true -> clean s = s.
Proof.
  intros Hs. unfold clean.
  rewrite (strip_leading_id s Hs), (strip_trailing_id s Hs).
  now apply remove_tab_newline_id.
Qed.

Lemma origin_char_printable c :
  is_origin_char c = true -> is_printable c = true.
Proof. by_code_unit c. Qed.

Lemma plain_char_origin_char c :
  is_plain_host_char c = true -> is_origin_char c = true.
Proof. by_code_unit c. Qed.

Lemma digit_plain_char c : is_digit c = true -> is_plain_host_char c = true.
Proof. by_code_unit c. Qed.

Lemma plain_char_scheme_char c :
  is_plain_host_char c = true -> is_scheme_char c = true.
Proof. by_code_unit c. Qed.

Lemma origin_char_not_slash c :
  is_origin_char c = true -> is_slash c = false.
Proof. by_code_unit c. Qed.

Lemma origin_char_in_authority c :
  is_origin_char c = true -> ends_authority true c = false.
Proof. by_code_unit c. Qed.

Lemma origin_char_not_at c : is_origin_char c = true -> (c == "@") = false.
Proof. by_code_unit c. Qed.

Lemma plain_char_in_host c :
  is_plain_host_char c = true ->
  (c == ":") = false /\ (c == "[") = false /\ (c == "]") = false.
Proof. by_code_unit c. Qed.

Lemma plain_char_ascii c : is_plain_host_char c = true -> is_ascii c = true.
Proof. by_code_unit c. Qed.

Lemma plain_char_not_percent c :
  is_plain_host_char c = true -> (c == "%") = false.
Proof. by_code_unit c. Qed.

Lemma plain_char_lower c : is_plain_host_char c = true -> to_lower c = c.
Proof. by_code_unit c. Qed.

Lemma plain_char_allowed c :
  is_plain_host_char c = true -> is_forbidden_domain_code_point c = false.
Proof. by_code_unit c. Qed.

Section OriginChars.

Variable s : string.
Hypothesis origin_chars : all is_origin_char s = true.

Lemma origin_clean : clean s = s.
Proof.
  apply clean_id. revert origin_chars. apply all_impl, origin_char_printable.
Qed.

Lemma origin_clean_http : clean ("http://" ++ s) = "http://" ++ s.
Proof.
  apply clean_id. rewrite all_app. simpl.
  revert origin_chars. apply all_impl, origin_char_printable.
Qed.

Lemma origin_skip_slashes : skip_slashes s = s.
Proof.
  revert origin_chars. destruct s as [|c t]; simpl; [reflexivity|].
  intros [Hc _]%andb_prop. now rewrite (origin_char_not_slash c Hc).
Qed.

Lemma origin_authority : authority_of true s = s.
Proof.
  revert origin_chars. induction s as [|c t IH]; simpl; [reflexivity|].
  intros [Hc Hs]%andb_prop.
  rewrite (origin_char_in_authority c Hc), (IH Hs). reflexivity.
Qed.

Lemma origin_no_at : after_last_at s = None.
Proof.
  revert origin_chars. induction s as [|c t IH]; simpl; [reflexivity|].
  intros [Hc Hs]%andb_prop.
  rewrite (IH Hs), (origin_char_not_at c Hc). reflexivity.
Qed.

(** What [new URL("http://" + s)] comes to once the text is known to be the
    whole authority. *)
Lemma origin_URL_new_http :
  URL_new unicode_ToASCII ("http://" ++ s) =
  match authority_state unicode_ToASCII "http" s with
  | Some url => Some (mkURL (get_protocol url) (get_host url) (get_port url))
  | None => None
  end.
Proof.
  unfold URL_new, basic_URL_parse. rewrite origin_clean_http.
  change (scheme_start_state ("http://" ++ s)) with (Some ("http", "//" ++ s)).
  change (String.eqb "http" "file") with false.
  change (is_special "http") with true. cbv iota.
  change (skip_slashes ("//" ++ s)) with (skip_slashes s).
  rewrite origin_skip_slashes. reflexivity.
Qed.

Lemma origin_authority_state :
  authority_state unicode_ToASCII "http" s =
  match host_state false s with
  | (buffer, Some after_colon) =>
      if JS.falsy buffer then None
      else
        match host_parse unicode_ToASCII false buffer with
        | None => None
        | Some h =>
            match port_state "http" after_colon with
            | None => None
            | Some p => Some (mk_url "http" (Some h) p)
            end
        end
  | (buffer, None) =>
      if JS.falsy buffer then None
      else
        match host_parse unicode_ToASCII false buffer with
        | None => None
        | Some h => Some (mk_url "http" (Some h) None)
        end
  end.
Proof.
  unfold authority_state. change (is_special "http") with true.
  rewrite origin_authority, origin_no_at. reflexivity.
Qed.

End OriginChars.

Section PlainHost.

Variable h : string.
Hypothesis plain : all is_plain_host_char h = true.

Lemma plain_origin_chars : all is_origin_char h = true.
Proof. revert plain. apply all_impl, plain_char_origin_char. Qed.

Lemma plain_scheme_state r : scheme_state (h ++ String ":" r) = Some (h, r).
Proof.
  revert plain. induction h as [|c s IH]; simpl; [reflexivity|].
  intros [Hc Hs]%andb_prop.
  rewrite (plain_char_scheme_char c Hc), (IH Hs), (plain_char_lower c Hc).
  reflexivity.
Qed.

Lemma plain_no_scheme : scheme_start_state h = None.
Proof.
  assert (Hstate : scheme_state h = None).
  { revert plain. induction h as [|c s IH]; simpl; [reflexivity|].
    intros [Hc Hs]%andb_prop.
    rewrite (plain_char_scheme_char c Hc), (IH Hs). reflexivity. }
  unfold scheme_start_state. destruct h as [|c s]; [reflexivity|].
  rewrite Hstate. now destruct (is_alpha c).
Qed.

Lemma plain_host_state_port r :
  host_state false (h ++ String ":" r) = (h, Some r).
Proof.
  revert plain. induction h as [|c s IH]; simpl; [reflexivity|].
  intros [Hc Hs]%andb_prop.
  destruct (plain_char_in_host c Hc) as (-> & -> & ->). simpl.
  rewrite (IH Hs). reflexivity.
Qed.

Lemma plain_host_state : host_state false h = (h, None).
Proof.
  revert plain. induction h as [|c s IH]; simpl; [reflexivity|].
  intros [Hc Hs]%andb_prop.
  destruct (plain_char_in_host c Hc) as (-> & -> & ->). simpl.
  rewrite (IH Hs). reflexivity.
Qed.

Lemma plain_utf8 : utf8_encode h = h.
Proof.
  revert plain. induction h as [|c s IH]; simpl; [reflexivity|].
  intros [Hc Hs]%andb_prop.
  rewrite (plain_char_ascii c Hc), (IH Hs). reflexivity.
Qed.

Lemma plain_percent_decode : percent_decode h = h.
Proof.
  revert plain. induction h as [|c s IH]; simpl; [reflexivity|].
  intros [Hc Hs]%andb_prop.
  rewrite (plain_char_not_percent c Hc), (IH Hs). reflexivity.
Qed.

Lemma plain_lowercase : ascii_lowercase h = h.
Proof.
  revert plain. induction h as [|c s IH]; simpl; [reflexivity|].
  intros [Hc Hs]%andb_prop.
  rewrite (plain_char_lower c Hc), (IH Hs). reflexivity.
Qed.

Lemma plain_not_forbidden : any is_forbidden_domain_code_point h = false.
Proof.
  revert plain. induction h as [|c s IH]; simpl; [reflexivity|].
  intros [Hc Hs]%andb_prop.
  rewrite (plain_char_allowed c Hc), (IH Hs). reflexivity.
Qed.

Lemma plain_not_bracket : JS.startsWith h "[" = false.
Proof.
  revert plain. destruct h as [|c s]; simpl; [reflexivity|].
  intros [Hc _]%andb_prop.
  destruct (plain_char_in_host c Hc) as (_ & -> & _). reflexivity.
Qed.

Hypothesis not_empty : JS.falsy h = false.
Hypothesis no_xn : has_xn_label h = false.
Hypothesis no_number : ends_in_a_number h = false.

Lemma plain_host_parse :
  host_parse unicode_ToASCII false h = Some (domain h).
Proof.
  unfold host_parse, domain_to_ASCII.
  rewrite plain_not_bracket, plain_utf8, plain_percent_decode.
  rewrite (all_impl _ _ h plain_char_ascii plain), no_xn. simpl.
  rewrite plain_lowercase, not_empty, plain_not_forbidden, no_number.
  reflexivity.
Qed.

(** [new URL(h)] throws and [new URL("http://" + h)] has host [h] and no
    port. *)
Lemma plain_URL_new : URL_new unicode_ToASCII h = None.
Proof.
  unfold URL_new, basic_URL_parse.
  rewrite (origin_clean h plain_origin_chars), plain_no_scheme.
  reflexivity.
Qed.

Lemma plain_URL_new_http :
  URL_new unicode_ToASCII ("http://" ++ h) = Some (mkURL "http:" h "").
Proof.
  rewrite (origin_URL_new_http h plain_origin_chars).
  rewrite (origin_authority_state h plain_origin_chars).
  rewrite plain_host_state, not_empty, plain_host_parse. reflexivity.
Qed.

End PlainHost.

Lemma split_not_empty sep s : JS.split sep s <> [].
Proof.
  destruct s as [|c s]; simpl; [discriminate|].
  destruct (c == sep); [discriminate|].
  destruct (JS.split sep s); discriminate.
Qed.

Lemma split_dotted s :
  any (fun c => c == ".") s = true ->
  Nat.eqb (List.length (JS.split "." s)) 1 = false.
Proof.
  induction s as [|c s IH]; simpl; [discriminate|].
  destruct (c == ".") eqn:Hc; simpl.
  - intros _. pose proof (split_not_empty "." s) as Hne.
    destruct (JS.split "." s); [congruence|reflexivity].
  - intros Hs. specialize (IH Hs). pose proof (split_not_empty "." s) as Hne.
    destruct (JS.split "." s); [congruence|exact IH].
Qed.

Lemma any_not_empty p s : any p s = true -> JS.falsy s = false.
Proof. destruct s; [discriminate|reflexivity]. Qed.

Lemma plain_host_inv h :
  plain_host h = true ->
  all is_plain_host_char h = true /\ any (fun c => c == ".") h = true /\
  ends_in_a_number h = false /\ has_xn_label h = false /\
  JS.startsWith h "http" = false.
Proof.
  unfold plain_host. rewrite !andb_true_iff, !negb_true_iff. tauto.
Qed.

(** Validating a plain host name: the direct attempt throws, the retry
    returns the name itself. *)
Lemma validateUrl_plain_host h :
  plain_host h = true ->
  validateUrl (URL_new unicode_ToASCII) h "generic" = Return (success [h]).
Proof.
  intros (Hplain & Hdot & Hnum & Hxn & Hhttp)%plain_host_inv.
  pose proof (any_not_empty _ _ Hdot) as Hne.
  rewrite validateUrl_generic by reflexivity.
  unfold generic_try, new_URL.
  rewrite (plain_URL_new h Hplain), Hhttp.
  rewrite (plain_URL_new_http h Hplain Hne Hxn Hnum). simpl.
  rewrite Hne, (split_dotted h Hdot). reflexivity.
Qed.

(** *** Parsing a plain name with a port *)

Lemma decimal_ok_below_spec n :
  fst (decimal_ok_below n) = n /\
  (snd (decimal_ok_below n) = true ->
   forall k, (k < n)%N -> decimal_ok k = true).
Proof.
  induction n as [|n [Hfst Hsnd]] using N.peano_ind.
  - split; [reflexivity|]. intros _ k Hk. lia.
  - unfold decimal_ok_below in *. rewrite N.iter_succ.
    destruct (N.iter n _ _) as [k0 b]. simpl in *. subst k0.
    split; [reflexivity|].
    intros [Hb Hn]%andb_prop k Hk.
    destruct (N.eq_dec k n) as [->|Hne]; [exact Hn|].
    apply Hsnd; [exact Hb|lia].
Qed.

Lemma decimal_ok_ports : snd (decimal_ok_below 65536) = true.
Proof. vm_compute. reflexivity. Qed.

Lemma decimal_port p :
  (p <=? 65535)%N = true ->
  all is_digit (decimal p) = true /\ number 10 (decimal p) = p /\
  JS.falsy (decimal p) = false.
Proof.
  intros Hp%N.leb_le.
  assert (Hok : decimal_ok p = true).
  { apply (proj2 (decimal_ok_below_spec 65536) decimal_ok_ports). lia. }
  unfold decimal_ok in Hok.
  apply andb_prop in Hok as [[Hd Hn]%andb_prop Hf].
  apply N.eqb_eq in Hn. apply negb_true_iff in Hf. auto.
Qed.

Lemma digit_not_slash c : is_digit c = true -> (c == "/") = false.
Proof. by_code_unit c. Qed.

Lemma plain_name_inv d :
  plain_name d = true ->
  all is_plain_host_char d = true /\ JS.falsy d = false /\
  ends_in_a_number d = false /\ has_xn_label d = false /\
  JS.startsWith d "http" = false /\ is_special d = false.
Proof.
  unfold plain_name. rewrite !andb_true_iff, !negb_true_iff. tauto.
Qed.

Lemma not_special_not_file d : is_special d = false -> String.eqb d "file" = false.
Proof.
  unfold is_special. intros H. repeat apply orb_false_elim in H as [H ?].
  assumption.
Qed.

Lemma startsWith_http_port d r :
  JS.startsWith d "http" = false ->
  JS.startsWith (d ++ String ":" r) "http" = false.
Proof.
  destruct d as [|c1 [|c2 [|c3 [|c4 d]]]]; simpl;
    rewrite ?andb_false_r; auto.
Qed.

Section PlainNamePort.

Variables (d : string) (p : N).
Hypothesis name : plain_name d = true.
Hypothesis port_in_range : (p <=? 65535)%N = true.
Hypothesis port_not_default : (p =? 80)%N = false.

Local Abbreviation origin := (d ++ String ":" (decimal p)).

Lemma port_origin_chars : all is_origin_char origin = true.
Proof.
  destruct (plain_name_inv d name) as (Hplain & _).
  destruct (decimal_port p port_in_range) as (Hdigits & _).
  rewrite all_app. simpl.
  rewrite (plain_origin_chars d Hplain). simpl.
  revert Hdigits. apply all_impl. intros c Hc.
  now apply plain_char_origin_char, digit_plain_char.
Qed.

(** [new URL(origin)] throws, or reads the name as a scheme and has no
    host. *)
Lemma port_direct_attempt :
  exists e, generic_try (URL_new unicode_ToASCII) origin = Throw e.
Proof.
  destruct (plain_name_inv d name) as (Hplain & _ & _ & _ & _ & Hspecial).
  destruct (decimal_port p port_in_range) as (Hdigits & _).
  unfold generic_try, new_URL, URL_new, basic_URL_parse.
  rewrite (origin_clean origin port_origin_chars).
  unfold scheme_start_state.
  destruct origin as [|c s] eqn:Horigin; [simpl; eauto|].
  destruct (is_alpha c); [|simpl; eauto].
  rewrite <- Horigin. rewrite (plain_scheme_state d Hplain).
  rewrite (not_special_not_file d Hspecial), Hspecial.
  destruct (decimal p) as [|c0 [|c1 r]]; simpl; eauto.
  simpl in Hdigits. apply andb_prop in Hdigits as [Hc0 _].
  rewrite (digit_not_slash c0 Hc0). simpl. eauto.
Qed.

Lemma port_state_http : port_state "http" (decimal p) = Some (Some p).
Proof.
  destruct (decimal_port p port_in_range) as (Hdigits & Hnumber & Hne).
  unfold port_state. rewrite Hdigits, Hne, Hnumber.
  apply N.leb_le in port_in_range.
  destruct (65535 <? p)%N eqn:Hlt; [apply N.ltb_lt in Hlt; lia|].
  change (default_port "http") with (Some 80%N). cbv iota.
  rewrite N.eqb_sym, port_not_default. reflexivity.
Qed.

Lemma port_URL_new_http :
  URL_new unicode_ToASCII ("http://" ++ origin) =
  Some (mkURL "http:" origin (decimal p)).
Proof.
  destruct (plain_name_inv d name) as (Hplain & Hne & Hnum & Hxn & _).
  rewrite (origin_URL_new_http origin port_origin_chars).
  rewrite (origin_authority_state origin port_origin_chars).
  rewrite (plain_host_state_port d Hplain), Hne.
  rewrite (plain_host_parse d Hplain Hne Hxn Hnum), port_state_http.
  reflexivity.
Qed.

Lemma validateUrl_name_port :
  validateUrl (URL_new unicode_ToASCII) origin "generic" =
  Return (success [origin]).
Proof.
  destruct (plain_name_inv d name) as (Hplain & Hne & _ & _ & Hhttp & _).
  destruct (decimal_port p port_in_range) as (_ & _ & Hport).
  rewrite validateUrl_generic by reflexivity.
  destruct port_direct_attempt as [e ->].
  rewrite (startsWith_http_port d _ Hhttp).
  unfold generic_try, new_URL. rewrite port_URL_new_http. simpl.
  rewrite Hport, andb_false_r.
  assert (Horigin : JS.falsy origin = false).
  { destruct d; [discriminate|reflexivity]. }
  rewrite Horigin. reflexivity.
Qed.

End PlainNamePort.

(** Every canonical origin validates to itself. *)
Lemma validateUrl_canonical_origin h :
  canonical_origin h ->
  validateUrl (URL_new unicode_ToASCII) h "generic" = Return (success [h]).
Proof.
  intros [h' Hplain|d p Hname Hrange Hdefault].
  - now apply validateUrl_plain_host.
  - now apply validateUrl_name_port.
Qed.

End Parser.

End WHATWGFacts.

(** * The claims of the specification *)

Import WHATWG WHATWGFacts.

Ltac run_generic :=
  rewrite validateUrl_generic by reflexivity; vm_compute; reflexivity.

Ltac run_validator := rewrite validateUrl_body; vm_compute; reflexivity.

(** C1, as amended.  In the generic arm a parse whose host is one bare
    dot-separated label and whose [url.port] is empty counts as a failed
    attempt: the call then fails with "Invalid URL." when the input starts
    with "http" and is otherwise answered by the single retry on the
    "http://"-prefixed input.  Whatever host the validator returns is
    nonempty and has a second label or comes with a port.  "localhost" is
    rejected, "localhost:3000" and "example.com" are returned unchanged. *)
Theorem generic_bare_host_is_a_failed_attempt
  (URL_new : string -> option URL)
  (unicode_ToASCII : string -> option string)
  (originParam : string) (url : URL)
  (Hparse : URL_new originParam = Some url)
  (Hbare : List.length (JS.split "." (host url)) = 1)
  (Hport : port url = "") :
  (exists e, generic_try URL_new originParam = Throw e) /\
  validateUrl URL_new originParam "generic" =
    (if JS.startsWith originParam "http" then Return (error "Invalid URL.")
     else validateUrl URL_new ("http://" ++ originParam) "generic") /\
  (forall input params,
     validateUrl URL_new input "generic" = Return (success params) ->
     exists parsed,
       (URL_new input = Some parsed \/
        URL_new ("http://" ++ input) = Some parsed) /\
       params = [host parsed] /\ host parsed <> "" /\
       (List.length (JS.split "." (host parsed)) <> 1 \/ port parsed <> "")) /\
  validateUrl (WHATWG.URL_new unicode_ToASCII) "localhost" "generic" =
    Return (error "Invalid URL.") /\
  validateUrl (WHATWG.URL_new unicode_ToASCII) "localhost:3000" "generic" =
    Return (success ["localhost:3000"]) /\
  validateUrl (WHATWG.URL_new unicode_ToASCII) "example.com" "generic" =
    Return (success ["example.com"]).
Proof.
  destruct (generic_try_bare_host URL_new originParam url Hparse Hbare Hport)
    as [e He].
  split; [eauto|]. split.
  { rewrite validateUrl_body. simpl. now rewrite He. }
  split.
  { intros input params Hvalid.
    rewrite validateUrl_generic in Hvalid by reflexivity.
    destruct (generic_try URL_new input) as [r|e'] eqn:Hfirst.
    - injection Hvalid as ->.
      destruct (generic_try_inv _ _ _ Hfirst) as (u & Hu & [= ->] & Hne & Hok).
      exists u. auto.
    - destruct (JS.startsWith input "http"); [discriminate|].
      destruct (generic_try URL_new ("http://" ++ input)) as [r|e'']
        eqn:Hsecond; [|discriminate].
      injection Hvalid as ->.
      destruct (generic_try_inv _ _ _ Hsecond) as (u & Hu & [= ->] & Hne & Hok).
      exists u. auto. }
  repeat split; run_generic.
Qed.

Lemma generic_bare_host_is_a_failed_attempt_witness :
  validateUrl (WHATWG.URL_new no_unicode_ToASCII) "http://localhost" "generic" =
  Return (error "Invalid URL.").
Proof.
  destruct (generic_bare_host_is_a_failed_attempt
              (WHATWG.URL_new no_unicode_ToASCII) no_unicode_ToASCII
              "http://localhost" (mkURL "http:" "localhost" "")
              eq_refl eq_refl eq_refl) as (_ & H & _).
  exact H.
Defined.

(** C1 as stated fails at "a.b://c": the parsed host "c" is one bare label
    and there is no port, yet the retry on "http://a.b://c" parses to the
    host "a.b" and the input is accepted. *)
Lemma bare_host_accepted_counterexample :
  WHATWG.URL_new no_unicode_ToASCII "a.b://c" = Some (mkURL "a.b:" "c" "") /\
  List.length (JS.split "." "c") = 1 /\
  validateUrl (WHATWG.URL_new no_unicode_ToASCII) "a.b://c" "generic" =
  Return (success ["a.b"]).
Proof.
  split; [reflexivity|]. split; [reflexivity|]. run_generic.
Qed.

(** C2.  In the generic arm a failed direct attempt (the constructor throws,
    the host is empty, or the host is bare without a port) is retried once on
    the input with "http://" in front, and only when the input does not start
    with "http"; the retry is not retried, and the call fails with
    "Invalid URL." when the retry fails too or the input started with "http".
    "example.com" does not parse directly and is accepted through the
    retry. *)
Theorem generic_retries_once_with_http_prefix
  (URL_new : string -> option URL)
  (unicode_ToASCII : string -> option string) (originParam : string) :
  validateUrl URL_new originParam "generic" =
    match generic_try URL_new originParam with
    | Return r => Return r
    | Throw _ =>
        if JS.startsWith originParam "http" then Return (error "Invalid URL.")
        else match generic_try URL_new ("http://" ++ originParam) with
             | Return r => Return r
             | Throw _ => Return (error "Invalid URL.")
             end
    end /\
  generic_try (WHATWG.URL_new unicode_ToASCII) "example.com" =
    Throw (TypeError "Invalid URL") /\
  generic_try (WHATWG.URL_new unicode_ToASCII) "localhost:3000" =
    Throw (Error "missing host") /\
  generic_try (WHATWG.URL_new unicode_ToASCII) "http://example.com" =
    Return (success ["example.com"]) /\
  validateUrl (WHATWG.URL_new unicode_ToASCII) "example.com" "generic" =
    Return (success ["example.com"]) /\
  validateUrl_call (WHATWG.URL_new unicode_ToASCII) "example.com" "generic" 1
    (Return (success ["example.com"])).
Proof.
  split; [now apply validateUrl_generic|].
  assert (Hdirect : generic_try (WHATWG.URL_new unicode_ToASCII) "example.com"
                    = Throw (TypeError "Invalid URL"))
    by (vm_compute; reflexivity).
  assert (Hretry : generic_try (WHATWG.URL_new unicode_ToASCII)
                     "http://example.com" = Return (success ["example.com"]))
    by (vm_compute; reflexivity).
  split; [exact Hdirect|]. split; [vm_compute; reflexivity|].
  split; [exact Hretry|]. split; [run_generic|].
  eapply call_generic_retry; [reflexivity|exact Hdirect|reflexivity|].
  apply call_generic_return; [reflexivity|exact Hretry].
Qed.

(** C3, as amended.  In the custom-scheme arm every input the URL constructor
    accepts is answered with the one-element list holding [url.protocol]
    without its final ":"; that scheme is the text before the first ":" of
    the input after the constructor's clean-up (leading and trailing C0
    controls and spaces stripped, tabs and newlines removed), in lower case.
    An input the constructor rejects fails with "Invalid scheme.". *)
Theorem custom_scheme_returns_the_parsed_scheme
  (URL_new : string -> option URL)
  (unicode_ToASCII : string -> option string) (originParam : string) :
  validateUrl URL_new originParam "custom-scheme" =
    match URL_new originParam with
    | Some url => Return (success [JS.slice_0_m1 (protocol url)])
    | None => Return (error "Invalid scheme.")
    end /\
  validateUrl (WHATWG.URL_new unicode_ToASCII) originParam "custom-scheme" =
    match WHATWG.URL_new unicode_ToASCII originParam with
    | Some _ =>
        Return (success [ascii_lowercase (before_first_colon (clean originParam))])
    | None => Return (error "Invalid scheme.")
    end /\
  validateUrl (WHATWG.URL_new unicode_ToASCII) "myapp://callback"
    "custom-scheme" = Return (success ["myapp"]) /\
  validateUrl (WHATWG.URL_new unicode_ToASCII) "not a url" "custom-scheme" =
    Return (error "Invalid scheme.").
Proof.
  assert (Hbody : forall U,
             validateUrl U originParam "custom-scheme" =
             match U originParam with
             | Some url => Return (success [JS.slice_0_m1 (protocol url)])
             | None => Return (error "Invalid scheme.")
             end).
  { intros U. rewrite validateUrl_body. simpl.
    unfold custom_scheme_try, new_URL. now destruct (U originParam). }
  split; [apply Hbody|]. split.
  - rewrite Hbody.
    destruct (WHATWG.URL_new unicode_ToASCII originParam) as [url|] eqn:Hurl;
      [|reflexivity].
    now rewrite (URL_new_scheme _ _ _ Hurl).
  - split; run_validator.
Qed.

(** C3 as stated fails at "MyApp://callback": the parameter is the scheme
    "myapp", not the text "MyApp" that stands before the first ":". *)
Lemma custom_scheme_is_lowercased_counterexample :
  before_first_colon "MyApp://callback" = "MyApp" /\
  validateUrl (WHATWG.URL_new no_unicode_ToASCII) "MyApp://callback"
    "custom-scheme" = Return (success ["myapp"]) /\
  validateUrl (WHATWG.URL_new no_unicode_ToASCII) "MyApp://callback"
    "custom-scheme" <>
  Return (success [before_first_colon "MyApp://callback"]).
Proof.
  split; [reflexivity|].
  assert (H : validateUrl (WHATWG.URL_new no_unicode_ToASCII)
                "MyApp://callback" "custom-scheme" =
              Return (success ["myapp"])) by run_validator.
  split; [exact H|]. rewrite H. discriminate.
Qed.

(** C4.  The netlify arm returns the input as the only parameter and the
    vercel arm returns "vercel.app" followed by the input, for every input;
    neither looks at the input, so neither fails. *)
Theorem netlify_and_vercel_accept_every_input
  (URL_new : string -> option URL) (originParam : string) :
  validateUrl URL_new originParam "netlify" = Return (success [originParam]) /\
  validateUrl URL_new originParam "vercel" =
    Return (success ["vercel.app"; originParam]).
Proof.
  split; rewrite validateUrl_body; reflexivity.
Qed.

(** C5.  Whenever the validator returns success, for any input and any
    service kind, the parameter list is not empty. *)
Theorem success_params_not_empty
  (URL_new : string -> option URL) (originParam service : string)
  (params : list string)
  (Hvalid : validateUrl URL_new originParam service = Return (success params)) :
  params <> [].
Proof.
  destruct (switch service) eqn:Hswitch.
  - rewrite validateUrl_body, Hswitch in Hvalid.
    injection Hvalid as <-. discriminate.
  - rewrite validateUrl_body, Hswitch in Hvalid.
    injection Hvalid as <-. discriminate.
  - rewrite validateUrl_body, Hswitch in Hvalid.
    unfold try_catch, custom_scheme_try, new_URL in Hvalid.
    destruct (URL_new originParam); simpl in Hvalid;
      [injection Hvalid as <-|]; discriminate.
  - rewrite validateUrl_generic in Hvalid by assumption.
    destruct (generic_try URL_new originParam) as [r|e] eqn:Hfirst.
    + destruct (generic_try_inv _ _ _ Hfirst) as (u & _ & -> & _).
      injection Hvalid as <-. discriminate.
    + destruct (JS.startsWith originParam "http"); [discriminate|].
      destruct (generic_try URL_new ("http://" ++ originParam)) as [r|e']
        eqn:Hsecond; [|discriminate].
      destruct (generic_try_inv _ _ _ Hsecond) as (u & _ & -> & _).
      injection Hvalid as <-. discriminate.
  - rewrite validateUrl_body, Hswitch in Hvalid. discriminate.
Qed.

Lemma success_params_not_empty_witness : ["example.com"] <> [].
Proof.
  apply (success_params_not_empty (WHATWG.URL_new no_unicode_ToASCII)
           "https://example.com/path" "generic" ["example.com"]).
  rewrite validateUrl_generic by reflexivity. vm_compute. reflexivity.
Defined.

(** C6.  Every call of the validator completes, with at most one nested call
    of itself: the retried input starts with "http", which leaves it no
    retry of its own. *)
Theorem validateUrl_terminates_after_at_most_one_retry
  (URL_new : string -> option URL) (originParam service : string) :
  (exists depth c,
     validateUrl_call URL_new originParam service depth c /\ depth <= 1 /\
     validateUrl URL_new originParam service = c) /\
  JS.startsWith ("http://" ++ originParam) "http" = true /\
  retries_left ("http://" ++ originParam) = 0.
Proof.
  split; [|split; reflexivity].
  destruct (validateUrl_call_complete URL_new originParam service)
    as [depth Hcall].
  exists depth, (validateUrl URL_new originParam service).
  split; [exact Hcall|]. split; [|reflexivity].
  now apply validateUrl_call_sound in Hcall.
Qed.

(** C7.  A service kind that is none of "generic", "netlify", "vercel" and
    "custom-scheme" is answered with the error "Unknown type", whatever the
    input. *)
Theorem unknown_service_is_rejected
  (URL_new : string -> option URL) (originParam service : string)
  (Hgeneric : service <> "generic") (Hnetlify : service <> "netlify")
  (Hvercel : service <> "vercel")
  (Hcustom : service <> "custom-scheme") :
  validateUrl URL_new originParam service = Return (error "Unknown type").
Proof.
  rewrite validateUrl_body. unfold switch.
  apply String.eqb_neq in Hgeneric, Hnetlify, Hvercel, Hcustom.
  now rewrite Hgeneric, Hnetlify, Hvercel, Hcustom.
Qed.

Lemma unknown_service_is_rejected_witness :
  validateUrl (WHATWG.URL_new no_unicode_ToASCII) "example.com" "github" =
  Return (error "Unknown type").
Proof.
  apply (unknown_service_is_rejected (WHATWG.URL_new no_unicode_ToASCII)
           "example.com" "github"); discriminate.
Defined.

(** C10.  No exception leaves the validator: for every input and service
    kind the call completes by returning a success or an error result; what
    the URL constructor or the checks of the generic arm throw is caught
    inside. *)
Theorem validateUrl_never_throws
  (URL_new : string -> option URL) (originParam service : string) :
  (exists r, validateUrl URL_new originParam service = Return r) /\
  (forall e, validateUrl URL_new originParam service <> Throw e).
Proof.
  destruct (validateUrl_returns URL_new originParam service) as [r Hr].
  split; [eauto|]. intros e. rewrite Hr. discriminate.
Qed.

(** * Further properties of the component *)

Section DisplayFacts.

Import AuthorizedOrigin.

(** X1.  An origin made from a successful validation is always shown as a
    string, never as [undefined]: the input itself for netlify and vercel,
    the validated host for generic, and the scheme followed by "://" for
    custom-scheme. *)
Theorem validated_origin_is_displayed
  (URL_new : string -> option URL) (originParam service oid : string)
  (validated : list string)
  (Hvalid : validateUrl URL_new originParam service =
            Return (success validated)) :
  exists shown,
    originDisplay (mk oid service validated) = Some shown /\
    match switch service with
    | case_netlify | case_vercel => shown = originParam
    | case_generic => validated = [shown]
    | case_custom_scheme =>
        exists scheme, validated = [scheme] /\ shown = scheme ++ "://"
    | case_default => False
    end.
Proof.
  unfold originDisplay. simpl.
  destruct (switch service) eqn:Hswitch.
  - rewrite validateUrl_body, Hswitch in Hvalid. injection Hvalid as <-.
    exists originParam. split; reflexivity.
  - rewrite validateUrl_body, Hswitch in Hvalid. injection Hvalid as <-.
    exists originParam. split; reflexivity.
  - rewrite validateUrl_body, Hswitch in Hvalid.
    unfold try_catch, custom_scheme_try, new_URL in Hvalid.
    destruct (URL_new originParam) as [url|]; simpl in Hvalid;
      [|discriminate].
    injection Hvalid as <-. eexists. split; [reflexivity|].
    eexists. split; reflexivity.
  - rewrite validateUrl_generic in Hvalid by assumption.
    destruct (generic_try URL_new originParam) as [r|e] eqn:Hfirst.
    + destruct (generic_try_inv _ _ _ Hfirst) as (u & _ & -> & _).
      injection Hvalid as <-. eexists. split; reflexivity.
    + destruct (JS.startsWith originParam "http"); [discriminate|].
      destruct (generic_try URL_new ("http://" ++ originParam)) as [r|e']
        eqn:Hsecond; [|discriminate].
      destruct (generic_try_inv _ _ _ Hsecond) as (u & _ & -> & _).
      injection Hvalid as <-. eexists. split; reflexivity.
  - rewrite validateUrl_body, Hswitch in Hvalid. discriminate.
Qed.

Lemma validated_origin_is_displayed_witness :
  exists shown,
    originDisplay (mk "o1" "vercel" ["vercel.app"; "myproj"]) = Some shown /\
    shown = "myproj".
Proof.
  apply (validated_origin_is_displayed
           (WHATWG.URL_new no_unicode_ToASCII) "myproj" "vercel" "o1"
           ["vercel.app"; "myproj"]).
  rewrite validateUrl_body. reflexivity.
Defined.

(** X2.  [originDisplay] is [undefined] exactly when the parameter it reads is
    missing and the service is not custom-scheme: the second parameter for
    vercel, the first one otherwise.  For custom-scheme it is always a
    string, "undefined://" when there is no parameter. *)
Theorem originDisplay_undefined (origin : AuthorizedOrigin.t) :
  (originDisplay origin = None <->
   match switch (service origin) with
   | case_custom_scheme => False
   | case_vercel => List.length (params origin) < 2
   | _ => params origin = []
   end) /\
  (switch (service origin) = case_custom_scheme -> params origin = [] ->
   originDisplay origin = Some "undefined://").
Proof.
  unfold originDisplay, JSValue.index. split.
  - destruct (switch (service origin)); destruct (params origin) as [|p [|q l]];
      simpl; split; intros H; try reflexivity; try discriminate;
      try contradiction; try lia.
  - intros -> ->. reflexivity.
Qed.

Lemma originDisplay_undefined_witness :
  originDisplay (mk "o1" "custom-scheme" []) = Some "undefined://".
Proof.
  apply (proj2 (originDisplay_undefined (mk "o1" "custom-scheme" [])));
    reflexivity.
Defined.

(** X3.  For a vercel origin [originSource] is the plain "Vercel project"
    exactly when the first parameter is "vercel.app"; any other first
    parameter, a missing one too, is appended in parentheses.  The origins
    the validator makes are of the plain kind. *)
Theorem originSource_vercel
  (URL_new : string -> option URL) (origin : AuthorizedOrigin.t)
  (Hvercel : switch (service origin) = case_vercel) :
  (originSource origin = "Vercel project" <->
   JSValue.index (params origin) 0 = Some "vercel.app") /\
  (originSource origin <> "Vercel project" ->
   originSource origin =
   "Vercel project (" ++ JSValue.template (JSValue.index (params origin) 0)
   ++ ")") /\
  (forall originParam validated,
     validateUrl URL_new originParam (service origin) =
       Return (success validated) ->
     originSource (mk (id origin) (service origin) validated) =
       "Vercel project").
Proof.
  split; [|split].
  - unfold originSource. rewrite Hvercel. cbv zeta.
    destruct (JSValue.index (params origin) 0) as [p|]; unfold JSValue.strict_neq.
    + destruct (String.eqb p "vercel.app") eqn:Hp; cbn [negb].
      * apply String.eqb_eq in Hp. subst p. split; reflexivity.
      * apply String.eqb_neq in Hp. split; [discriminate|congruence].
    + split; discriminate.
  - unfold originSource. rewrite Hvercel. cbv zeta.
    destruct (JSValue.strict_neq _ _); [reflexivity|congruence].
  - intros originParam validated Hvalid.
    rewrite validateUrl_body, Hvercel in Hvalid. injection Hvalid as <-.
    unfold originSource. cbn [service]. rewrite Hvercel. reflexivity.
Qed.

Lemma originSource_vercel_witness :
  originSource (mk "o1" "vercel" ["acme.dev"; "myproj"]) =
  "Vercel project (acme.dev)".
Proof.
  apply (originSource_vercel (WHATWG.URL_new no_unicode_ToASCII)
           (mk "o1" "vercel" ["acme.dev"; "myproj"]) eq_refl).
  discriminate.
Defined.

End DisplayFacts.

Section FormFacts.

Variable InstantError : Type.
Variable messageFromInstantError : thrown InstantError -> option string.

(** X4.  Submitting the origin form asks the backend to add an origin exactly
    when the validator accepts the input, with the service selected and the
    parameters the validator returned; a rejected input costs one toast
    with the validator's message and no request.  The loading flag is raised
    first and lowered last on every path, and the validator never reaches the
    [catch] clause. *)
Theorem origin_form_submit
  (URL_new : string -> option URL)
  (reply : AddOriginRequest.t -> InstantError + AuthorizedOrigin.t)
  (token appId url service : string) :
  let events :=
    AuthorizedOriginsForm.onSubmit URL_new InstantError
      messageFromInstantError reply token appId url service in
  (forall request,
     In (addAuthorizedOrigin request) events <->
     validateUrl URL_new url service =
       Return (success (AddOriginRequest.params request)) /\
     request = AddOriginRequest.mk token appId service
                 (AddOriginRequest.params request)) /\
  (forall message,
     validateUrl URL_new url service = Return (error message) ->
     events = [preventDefault; setIsLoading true; errorToast message;
               setIsLoading false]) /\
  (exists middle,
     events = ([preventDefault; setIsLoading true] ++ middle ++
               [setIsLoading false])%list /\
     forall loading, ~ In (setIsLoading loading) middle) /\
  (forall e, ~ In (console_error (thrown_exn e)) events).
Proof.
  intros events. subst events. unfold AuthorizedOriginsForm.onSubmit.
  destruct (validateUrl_returns URL_new url service) as [r Hr]. rewrite Hr.
  destruct r as [message|validated].
  - split; [|split; [|split]].
    + intros request. split.
      * simpl. intros [H|[H|[H|[H|[]]]]]; discriminate.
      * intros [H _]. discriminate.
    + intros m [= <-]. reflexivity.
    + exists [errorToast message]. split; [reflexivity|].
      intros loading [H|[]]. discriminate.
    + intros e. simpl. intros [H|[H|[H|[H|[]]]]]; discriminate.
  - set (request := AddOriginRequest.mk token appId service validated).
    split; [|split; [|split]].
    + intros r. split.
      * unfold AuthorizedOriginsForm.onSubmit_catch.
        destruct (reply request); simpl;
          intros H; repeat (destruct H as [H|H]; try discriminate);
          try contradiction; injection H as <-; split; reflexivity.
      * intros [[= Hparams] ->]. rewrite <- Hparams. fold request.
        simpl. right. right. left. reflexivity.
    + intros m [=].
    + unfold AuthorizedOriginsForm.onSubmit_catch.
      destruct (reply request) as [e|origin].
      * eexists. split; [reflexivity|].
        intros loading H. simpl in H.
        repeat (destruct H as [H|H]; try discriminate). contradiction.
      * eexists. split; [reflexivity|].
        intros loading H. simpl in H.
        repeat (destruct H as [H|H]; try discriminate). contradiction.
    + intros e. unfold AuthorizedOriginsForm.onSubmit_catch.
      destruct (reply request); simpl; intros H;
        repeat (destruct H as [H|H]; try discriminate); contradiction.
Qed.

(** X5.  Submitting the client form asks the backend to add a client exactly
    when the name, the client id and the client secret are all filled in.
    With a field missing the handler shows one toast, naming the first
    missing field in the order name, id, secret, and neither touches the
    loading flag nor sends anything; otherwise the loading flag is lowered
    again at the end whatever the backend replies. *)
Theorem client_form_submit
  (reply : AddClientRequest.t -> InstantError + OAuthClient.t)
  (token appId providerId clientName clientId clientSecret : string)
  (authorizationEndpoint tokenEndpoint discoveryEndpoint : string) :
  let events :=
    AddClientForm.onSubmit InstantError messageFromInstantError reply token
      appId providerId clientName clientId clientSecret authorizationEndpoint
      tokenEndpoint discoveryEndpoint in
  let complete :=
    negb (JS.falsy clientName) && negb (JS.falsy clientId) &&
    negb (JS.falsy clientSecret) in
  ((exists request, In (addClient request) events) <-> complete = true) /\
  (complete = false ->
   events =
   [preventDefault;
    errorToast (if JS.falsy clientName then "Missing unique name"
                else if JS.falsy clientId then "Missing client id"
                else "Missing client secret")]) /\
  (complete = true ->
   exists middle,
     events = ([preventDefault; setIsLoading true;
                addClient (AddClientRequest.mk token appId providerId
                             clientName clientId clientSecret
                             authorizationEndpoint tokenEndpoint
                             discoveryEndpoint)] ++ middle ++
               [setIsLoading false])%list /\
     (forall loading, ~ In (setIsLoading loading) middle) /\
     (forall request, ~ In (addClient request) middle)).
Proof.
  intros events complete. subst events complete.
  unfold AddClientForm.onSubmit, AddClientForm.validationError.
  destruct (JS.falsy clientName); [|destruct (JS.falsy clientId);
    [|destruct (JS.falsy clientSecret)]]; cbn [negb andb].
  1-3: split; [|split]; [|reflexivity|discriminate]; split;
    [intros [request [H|[H|[]]]]; discriminate|discriminate].
  split; [|split]; [|discriminate|].
  - split; [reflexivity|]. intros _. eexists. simpl. right. right. left.
    reflexivity.
  - intros _.
    destruct (reply _) as [e|client]; eexists; (split; [reflexivity|]);
      split; intros x H; simpl in H;
      repeat (destruct H as [H|H]; try discriminate); contradiction.
Qed.

End FormFacts.

Lemma client_form_submit_witness :
  exists request,
    In (addClient request)
      (AddClientForm.onSubmit unit (fun _ => None)
         (fun _ => inl tt) "token" "app" "provider" "google-web" "id"
         "secret" "a" "b" "c").
Proof.
  apply (proj1 (client_form_submit unit (fun _ => None) (fun _ => inl tt)
                  "token" "app" "provider" "google-web" "id" "secret"
                  "a" "b" "c")).
  reflexivity.
Defined.

Section AppAuthFacts.

Import AppsAuthResponse AppAuth.

(** X6.  [handleRemoveOrigin] drops every origin that has the id of the
    removed one, however often it occurs, keeps all others, and leaves the
    providers and the clients alone. *)
Theorem handleRemoveOrigin_removes_by_id
  (data : AppsAuthResponse.t) (origin o : AuthorizedOrigin.t) :
  (In o (JSValue.or_empty
           (authorized_redirect_origins (handleRemoveOrigin data origin))) <->
   In o (JSValue.or_empty (authorized_redirect_origins data)) /\
   AuthorizedOrigin.id o <> AuthorizedOrigin.id origin) /\
  oauth_service_providers (handleRemoveOrigin data origin) =
    oauth_service_providers data /\
  oauth_clients (handleRemoveOrigin data origin) = oauth_clients data.
Proof.
  split; [|split; reflexivity].
  unfold handleRemoveOrigin. simpl.
  destruct (authorized_redirect_origins data) as [l|]; simpl.
  - rewrite filter_In, negb_true_iff, String.eqb_neq. reflexivity.
  - tauto.
Qed.

(** X7.  Removing an origin right after adding it gives back the list of
    origins there was, provided no origin already had its id; a list that was
    missing comes back as the empty list. *)
Theorem remove_after_add_origin
  (data : AppsAuthResponse.t) (origin : AuthorizedOrigin.t)
  (Hfresh : forall o,
      In o (JSValue.or_empty (authorized_redirect_origins data)) ->
      AuthorizedOrigin.id o <> AuthorizedOrigin.id origin) :
  handleRemoveOrigin (handleAddOrigin data origin) origin =
  mk (Some (JSValue.or_empty (authorized_redirect_origins data)))
     (oauth_service_providers data) (oauth_clients data).
Proof.
  unfold handleRemoveOrigin, handleAddOrigin. simpl.
  rewrite String.eqb_refl. simpl. do 3 f_equal.
  induction (JSValue.or_empty (authorized_redirect_origins data)) as [|o l IH];
    [reflexivity|].
  simpl. assert (Ho := Hfresh o (or_introl eq_refl)).
  apply String.eqb_neq in Ho. rewrite Ho. simpl. f_equal.
  apply IH. intros o' Ho'. apply Hfresh. now right.
Qed.

Lemma remove_after_add_origin_witness :
  handleRemoveOrigin
    (handleAddOrigin
       (mk None None None)
       (AuthorizedOrigin.mk "o1" "netlify" ["mysite"]))
    (AuthorizedOrigin.mk "o1" "netlify" ["mysite"]) =
  mk (Some []) None None.
Proof.
  apply (remove_after_add_origin (mk None None None)
           (AuthorizedOrigin.mk "o1" "netlify" ["mysite"])).
  intros o [].
Defined.

(** X8.  [handleDeleteClient] keeps exactly the clients whose id differs from
    the id of the deleted one, whatever the list holds; and when no client
    already had the id of a new client, deleting that client right after
    adding it gives back the clients there were (a missing list as the empty
    list), with origins and providers untouched. *)
Theorem delete_after_add_client
  (data : AppsAuthResponse.t) (client : OAuthClient.t) :
  (forall c,
     In c (JSValue.or_empty (oauth_clients (handleDeleteClient data client)))
     <-> In c (JSValue.or_empty (oauth_clients data)) /\
         OAuthClient.id c <> OAuthClient.id client) /\
  ((forall c,
      In c (JSValue.or_empty (oauth_clients data)) ->
      OAuthClient.id c <> OAuthClient.id client) ->
   handleDeleteClient (handleAddClient data client) client =
     mk (authorized_redirect_origins data) (oauth_service_providers data)
        (Some (JSValue.or_empty (oauth_clients data)))).
Proof.
  split.
  - intros c. unfold handleDeleteClient. simpl.
    rewrite filter_In, negb_true_iff, String.eqb_neq. reflexivity.
  - intros Hfresh. unfold handleDeleteClient, handleAddClient. simpl.
    rewrite String.eqb_refl. simpl. do 2 f_equal.
    induction (JSValue.or_empty (oauth_clients data)) as [|c l IH];
      [reflexivity|].
    simpl. assert (Hc := Hfresh c (or_introl eq_refl)).
    apply String.eqb_neq in Hc. rewrite Hc. simpl. f_equal.
    apply IH. intros c' Hc'. apply Hfresh. now right.
Qed.

Lemma delete_after_add_client_witness :
  handleDeleteClient
    (handleAddClient
       (mk None None (Some [OAuthClient.mk "c0" "google-ios" "id0" "p1"]))
       (OAuthClient.mk "c1" "google-web" "id1" "p1"))
    (OAuthClient.mk "c1" "google-web" "id1" "p1") =
  mk None None (Some [OAuthClient.mk "c0" "google-ios" "id0" "p1"]).
Proof.
  apply (proj2 (delete_after_add_client
                  (mk None None
                     (Some [OAuthClient.mk "c0" "google-ios" "id0" "p1"]))
                  (OAuthClient.mk "c1" "google-web" "id1" "p1"))).
  intros c [<-|[]]. discriminate.
Defined.

(** X9.  Once a provider named "google" is added it is the provider the page
    works with, also when one was there before; from then on the redirect
    origins are rendered as soon as any client is added, whichever provider
    that client belongs to, while the clients listed for Google are those
    whose [provider_id] is the provider's id. *)
Theorem google_provider_after_add
  (data : AppsAuthResponse.t) (provider : OAuthServiceProvider.t)
  (client : OAuthClient.t)
  (Hgoogle : OAuthServiceProvider.provider_name provider = "google") :
  googleProvider (handleAddProvider data provider) = Some provider /\
  showsAuthorizedOrigins (handleAddProvider data provider) =
    negb (Nat.eqb (List.length (JSValue.or_empty (oauth_clients data))) 0) /\
  showsAuthorizedOrigins
    (handleAddClient (handleAddProvider data provider) client) = true /\
  (forall c,
     In c (googleClients
             (handleAddClient (handleAddProvider data provider) client)
             provider) <->
     (c = client \/ In c (JSValue.or_empty (oauth_clients data))) /\
     OAuthClient.provider_id c = OAuthServiceProvider.id provider).
Proof.
  assert (Hfound : googleProvider (handleAddProvider data provider) =
                   Some provider).
  { unfold googleProvider, handleAddProvider. simpl. now rewrite Hgoogle. }
  split; [exact Hfound|]. split; [|split].
  - unfold showsAuthorizedOrigins. rewrite Hfound. simpl.
    now destruct (oauth_clients data) as [[|c l]|].
  - unfold showsAuthorizedOrigins.
    assert (Hsame : googleProvider
                      (handleAddClient (handleAddProvider data provider) client)
                    = Some provider) by exact Hfound.
    rewrite Hsame. reflexivity.
  - intros c. unfold googleClients, handleAddClient, handleAddProvider. simpl.
    destruct (String.eqb (OAuthClient.provider_id client)
                (OAuthServiceProvider.id provider)) eqn:Hclient; simpl;
      rewrite filter_In, String.eqb_eq.
    + apply String.eqb_eq in Hclient. intuition (subst; auto).
    + apply String.eqb_neq in Hclient. intuition (subst; auto; congruence).
Qed.

Lemma google_provider_after_add_witness :
  googleProvider
    (handleAddProvider (mk None None None)
       (OAuthServiceProvider.mk "p1" "google")) =
  Some (OAuthServiceProvider.mk "p1" "google").
Proof.
  apply (google_provider_after_add (mk None None None)
           (OAuthServiceProvider.mk "p1" "google")
           (OAuthClient.mk "c1" "google-web" "id" "p1") eq_refl).
Defined.

End AppAuthFacts.

Section SandboxFacts.

Import Sandbox.

Lemma count_goal_deletes ids id :
  count_occ tx_step_dec (map (fun i => tx_delete "goals" i) ids)
    (tx_delete "todos" id) = 0.
Proof.
  induction ids as [|i ids IH]; [reflexivity|].
  cbn [map]. now rewrite count_occ_cons_neq by discriminate.
Qed.

Lemma count_todo_deletes ids id :
  count_occ tx_step_dec (map (fun i => tx_delete "todos" i) ids)
    (tx_delete "todos" id) = count_occ string_dec ids id.
Proof.
  induction ids as [|i ids IH]; [reflexivity|].
  cbn [map]. destruct (string_dec i id) as [->|Hne].
  - now rewrite !count_occ_cons_eq, IH by reflexivity.
  - now rewrite !count_occ_cons_neq, IH by congruence.
Qed.

Lemma count_occ_concat (ll : list (list string)) id :
  count_occ string_dec (concat ll) id =
  list_sum (map (fun l => count_occ string_dec l id) ll).
Proof.
  induction ll as [|l ll IH]; [reflexivity|].
  simpl. now rewrite count_occ_app, IH.
Qed.

(** X10.  The transaction of "Clear Data" holds one delete per goal of the
    query result, in the order of the result, followed by one delete per
    todo of each goal: a todo is deleted exactly when some goal of the result
    lists it, and as often as it is listed. *)
Theorem clearData_deletes_goals_then_todos (goals : list goal) :
  firstn (List.length goals) (clearData goals) =
    map (fun g => tx_delete "goals" (goal_id g)) goals /\
  List.length (clearData goals) =
    List.length goals + list_sum (map (fun g => List.length (todos g)) goals) /\
  (forall id,
     In (tx_delete "todos" id) (clearData goals) <->
     exists g t, In g goals /\ In t (todos g) /\ todo_id t = id) /\
  (forall id,
     count_occ tx_step_dec (clearData goals) (tx_delete "todos" id) =
     list_sum
       (map (fun g => count_occ string_dec (map todo_id (todos g)) id) goals)).
Proof.
  unfold clearData. split; [|split; [|split]].
  - rewrite map_map.
    rewrite <- (length_map (fun g => tx_delete "goals" (goal_id g)) goals) at 1.
    rewrite firstn_app, firstn_all, Nat.sub_diag. simpl.
    now rewrite app_nil_r.
  - rewrite length_app, !length_map. f_equal.
    induction goals as [|g goals IH]; [reflexivity|].
    simpl. now rewrite length_app, length_map, IH.
  - intros id. rewrite in_app_iff, !in_map_iff. split.
    + intros [(i & H & _)|(i & [= ->] & Hi)]; [discriminate|].
      apply in_concat in Hi as (ids & Hids & Hi).
      apply in_map_iff in Hids as (g & <- & Hg).
      apply in_map_iff in Hi as (t & Ht & Hin). eauto.
    + intros (g & t & Hg & Ht & <-). right. exists (todo_id t).
      split; [reflexivity|]. apply in_concat.
      exists (map todo_id (todos g)). split.
      * apply in_map_iff. exists g. split; [reflexivity|exact Hg].
      * now apply in_map.
  - intros id.
    rewrite count_occ_app, count_goal_deletes, count_todo_deletes.
    rewrite count_occ_concat, map_map. reflexivity.
Qed.

End SandboxFacts.

Section PlaceholderFacts.

Import WHATWG.

Variable unicode_ToASCII : string -> option string.

(** X11.  The example each kind of origin is prompted with is accepted by the
    validator for that kind: for "generic", "netlify", "vercel" and
    "custom-scheme" validating [originInputPlaceholder] succeeds and the
    stored origin is shown as "example.com", "netlify-site-name",
    "vercel-project-name" and "app-scheme://". *)
Theorem placeholder_is_accepted (service oid : string)
  (Hknown : switch service <> case_default) :
  exists validated shown,
    validateUrl (URL_new unicode_ToASCII) (originInputPlaceholder service)
      service = Return (success validated) /\
    originDisplay (AuthorizedOrigin.mk oid service validated) = Some shown /\
    shown = match switch service with
            | case_generic => "example.com"
            | case_custom_scheme => "app-scheme://"
            | _ => originInputPlaceholder service
            end.
Proof.
  unfold originInputPlaceholder, originDisplay. cbn [AuthorizedOrigin.service
    AuthorizedOrigin.params].
  destruct (switch service) eqn:Hswitch; [| | | |congruence].
  - exists ["netlify-site-name"], "netlify-site-name".
    rewrite validateUrl_body, Hswitch. repeat split.
  - exists ["vercel.app"; "vercel-project-name"], "vercel-project-name".
    rewrite validateUrl_body, Hswitch. repeat split.
  - exists ["app-scheme"], "app-scheme://".
    rewrite validateUrl_body, Hswitch. repeat split.
  - exists ["example.com"], "example.com".
    rewrite validateUrl_generic by assumption. repeat split.
Qed.

End PlaceholderFacts.

Lemma placeholder_is_accepted_witness :
  exists validated shown,
    validateUrl (WHATWG.URL_new no_unicode_ToASCII)
      (originInputPlaceholder "generic") "generic" =
      Return (success validated) /\
    originDisplay (AuthorizedOrigin.mk "o1" "generic" validated) = Some shown /\
    shown = "example.com".
Proof.
  apply (placeholder_is_accepted no_unicode_ToASCII "generic" "o1").
  discriminate.
Defined.

Section SchemeFacts.

Import WHATWG WHATWGFacts.

Local Infix "==" := Ascii.eqb (at level 70, no associativity).

Lemma alpha_to_lower c : is_alpha c = true -> is_lower_alpha (to_lower c) = true.
Proof. by_code_unit c. Qed.

Lemma alpha_scheme_char c : is_alpha c = true -> is_scheme_char c = true.
Proof. by_code_unit c. Qed.

Lemma scheme_char_to_lower c :
  is_scheme_char c = true -> is_lower_scheme_char (to_lower c) = true.
Proof. by_code_unit c. Qed.

Lemma lower_scheme_char_inv c :
  is_lower_scheme_char c = true ->
  is_scheme_char c = true /\ to_lower c = c /\ is_printable c = true.
Proof. by_code_unit c. Qed.

Lemma lower_alpha_inv c :
  is_lower_alpha c = true ->
  is_alpha c = true /\ is_lower_scheme_char c = true.
Proof. by_code_unit c. Qed.

Lemma scheme_state_lower s scheme remaining :
  scheme_state s = Some (scheme, remaining) ->
  all is_lower_scheme_char scheme = true.
Proof.
  revert scheme. induction s as [|c s IH]; simpl; intros scheme; [discriminate|].
  destruct (is_scheme_char c) eqn:Hc.
  - destruct (scheme_state s) as [[buffer rest]|]; [|discriminate].
    intros [= <- <-]. simpl.
    now rewrite (scheme_char_to_lower c Hc), (IH buffer).
  - destruct (c == ":"); [|discriminate]. now intros [= <- <-].
Qed.

Lemma scheme_start_state_canonical s scheme remaining :
  scheme_start_state s = Some (scheme, remaining) ->
  canonical_scheme scheme = true.
Proof.
  unfold scheme_start_state. destruct s as [|c s]; [discriminate|].
  destruct (is_alpha c) eqn:Halpha; [|discriminate].
  intros Hstate. pose proof (scheme_state_lower _ _ _ Hstate) as Hlower.
  cbn [scheme_state] in Hstate. rewrite (alpha_scheme_char c Halpha) in Hstate.
  destruct (scheme_state s) as [[buffer rest]|]; [|discriminate].
  injection Hstate as <- <-. cbn [all] in Hlower.
  apply andb_prop in Hlower as [_ Hrest]. cbn [canonical_scheme].
  now rewrite (alpha_to_lower c Halpha), Hrest.
Qed.

Section Parser.

Variable unicode_ToASCII : string -> option string.

Lemma basic_URL_parse_scheme_start input url :
  basic_URL_parse unicode_ToASCII input = Some url ->
  exists remaining,
    scheme_start_state (clean input) = Some (url_scheme url, remaining).
Proof.
  unfold basic_URL_parse.
  destruct (scheme_start_state (clean input)) as [[scheme remaining]|];
    [|discriminate].
  intros Hurl. exists remaining. do 2 f_equal.
  destruct (String.eqb scheme "file") eqn:Hfile.
  - apply String.eqb_eq in Hfile. subst scheme.
    symmetry. now apply (file_state_scheme unicode_ToASCII remaining).
  - destruct (is_special scheme).
    + symmetry. now apply (authority_state_scheme unicode_ToASCII _ _ _ Hurl).
    + destruct remaining as [|c0 [|c1 r]]; try now injection Hurl as <-.
      destruct ((c0 == "/") && (c1 == "/")).
      * symmetry.
        now apply (authority_state_scheme unicode_ToASCII _ _ _ Hurl).
      * now injection Hurl as <-.
Qed.

Section CanonicalScheme.

Variable scheme : string.
Hypothesis canonical : canonical_scheme scheme = true.

Lemma canonical_lower : all is_lower_scheme_char scheme = true.
Proof.
  destruct scheme as [|c rest]; [discriminate|].
  simpl in canonical. apply andb_prop in canonical as [Hc Hrest].
  simpl. now rewrite (proj2 (lower_alpha_inv c Hc)), Hrest.
Qed.

Lemma canonical_clean : clean (scheme ++ "://") = scheme ++ "://".
Proof.
  apply clean_id. rewrite all_app. simpl. rewrite andb_true_r.
  generalize canonical_lower. apply all_impl.
  intros c Hc. now apply lower_scheme_char_inv.
Qed.

Lemma canonical_scheme_state r :
  scheme_state (scheme ++ String ":" r) = Some (scheme, r).
Proof.
  generalize canonical_lower. clear canonical.
  induction scheme as [|c s IH]; simpl; [reflexivity|].
  intros [Hc Hs]%andb_prop.
  destruct (lower_scheme_char_inv c Hc) as (-> & -> & _).
  now rewrite (IH Hs).
Qed.

Lemma canonical_scheme_start :
  scheme_start_state (scheme ++ "://") = Some (scheme, "//").
Proof.
  pose proof (canonical_scheme_state "//") as Hstate.
  pose proof canonical as Hcanonical.
  unfold scheme_start_state.
  destruct scheme as [|c rest]; [discriminate|].
  cbn [canonical_scheme] in Hcanonical.
  apply andb_prop in Hcanonical as [Hc _].
  cbn [append]. rewrite (proj1 (lower_alpha_inv c Hc)). exact Hstate.
Qed.

(** [new URL(scheme + "://")]: rejected for the special schemes other than
    "file", which need a host; otherwise a URL with that scheme. *)
Lemma canonical_URL_new :
  URL_new unicode_ToASCII (scheme ++ "://") =
  if is_special scheme && negb (String.eqb scheme "file") then None
  else Some (mkURL (scheme ++ ":") "" "").
Proof.
  unfold URL_new, basic_URL_parse.
  rewrite canonical_clean, canonical_scheme_start.
  destruct (String.eqb scheme "file") eqn:Hfile.
  - apply String.eqb_eq in Hfile. rewrite Hfile. reflexivity.
  - destruct (is_special scheme) eqn:Hspecial; cbn [andb negb].
    + unfold authority_state. rewrite Hspecial. reflexivity.
    + cbv iota. change (("/" == "/") && ("/" == "/")) with true. cbv iota.
      unfold authority_state. rewrite Hspecial. reflexivity.
Qed.

End CanonicalScheme.

(** X12.  The scheme a custom-scheme validation returns is shown as the scheme
    followed by "://", and validating what is shown gives the same scheme
    again, except for "http", "https", "ftp", "ws" and "wss": shown as
    "http://" and the like, they are rejected with "Invalid scheme.". *)
Theorem custom_scheme_display_revalidates
  (originParam scheme oid : string)
  (Hvalid : validateUrl (URL_new unicode_ToASCII) originParam "custom-scheme"
            = Return (success [scheme])) :
  originDisplay (AuthorizedOrigin.mk oid "custom-scheme" [scheme]) =
    Some (scheme ++ "://") /\
  canonical_scheme scheme = true /\
  validateUrl (URL_new unicode_ToASCII) (scheme ++ "://") "custom-scheme" =
    if is_special scheme && negb (String.eqb scheme "file")
    then Return (error "Invalid scheme.")
    else Return (success [scheme]).
Proof.
  split; [reflexivity|].
  rewrite validateUrl_body in Hvalid. cbn [switch String.eqb] in Hvalid.
  simpl in Hvalid. unfold try_catch, custom_scheme_try, new_URL in Hvalid.
  destruct (URL_new unicode_ToASCII originParam) as [url|] eqn:Hurl;
    simpl in Hvalid; [|discriminate].
  injection Hvalid as Hscheme.
  unfold URL_new in Hurl.
  destruct (basic_URL_parse unicode_ToASCII originParam) as [u|] eqn:Hu;
    [|discriminate].
  injection Hurl as <-. simpl in Hscheme. unfold get_protocol in Hscheme.
  rewrite slice_0_m1_colon in Hscheme. subst scheme.
  destruct (basic_URL_parse_scheme_start _ _ Hu) as [remaining Hstart].
  pose proof (scheme_start_state_canonical _ _ _ Hstart) as Hcanonical.
  split; [exact Hcanonical|].
  rewrite validateUrl_body. change (switch "custom-scheme") with
    case_custom_scheme. cbv iota.
  unfold try_catch, custom_scheme_try, new_URL.
  rewrite (canonical_URL_new _ Hcanonical).
  destruct (is_special (url_scheme u) && negb (String.eqb (url_scheme u) "file"));
    [reflexivity|].
  simpl. now rewrite slice_0_m1_colon.
Qed.

End Parser.

End SchemeFacts.

Lemma custom_scheme_display_revalidates_witness :
  validateUrl (WHATWG.URL_new no_unicode_ToASCII) "myapp://" "custom-scheme" =
  Return (success ["myapp"]).
Proof.
  apply (custom_scheme_display_revalidates no_unicode_ToASCII
           "MyApp://callback" "myapp" "o1").
  rewrite validateUrl_body. vm_compute. reflexivity.
Defined.

Section HostTextFacts.

Import WHATWG WHATWGFacts.

Local Infix "==" := Ascii.eqb (at level 70, no associativity).

Lemma digit_host_text c : is_digit c = true -> is_host_text c = true.
Proof. by_code_unit c. Qed.

Lemma hex_digit_host_text c : is_hex_digit c = true -> is_host_text c = true.
Proof. by_code_unit c. Qed.

Lemma allowed_in_domain_host_text c :
  is_forbidden_domain_code_point c = false -> is_host_text c = true.
Proof. by_code_unit c. Qed.

Lemma decimal_digits n : all is_digit (decimal n) = true.
Proof.
  unfold decimal, DecimalString.NilZero.string_of_uint.
  assert (H : forall d,
             all is_digit (DecimalString.NilEmpty.string_of_uint d) = true)
    by (induction d; cbn [DecimalString.NilEmpty.string_of_uint all];
        rewrite ?IHd; reflexivity).
  destruct (N.to_uint n); try apply H. reflexivity.
Qed.

Lemma hexadecimal_digits n : all is_hex_digit (hexadecimal n) = true.
Proof.
  unfold hexadecimal, HexadecimalString.NilZero.string_of_uint.
  assert (H : forall d,
             all is_hex_digit (HexadecimalString.NilEmpty.string_of_uint d)
             = true)
    by (induction d; cbn [HexadecimalString.NilEmpty.string_of_uint all];
        rewrite ?IHd; reflexivity).
  destruct (N.to_hex_uint n); try apply H. reflexivity.
Qed.

Lemma decimal_host_text n : all is_host_text (decimal n) = true.
Proof.
  generalize (decimal_digits n). apply all_impl, digit_host_text.
Qed.

Lemma hexadecimal_host_text n : all is_host_text (hexadecimal n) = true.
Proof.
  generalize (hexadecimal_digits n). apply all_impl, hex_digit_host_text.
Qed.

Lemma ipv4_host_text address : all is_host_text (ipv4_serialize address) = true.
Proof.
  unfold ipv4_serialize.
  repeat (rewrite all_app, decimal_host_text; cbn [all andb append];
          try change (is_host_text ".") with true; cbn [andb]).
  apply decimal_host_text.
Qed.

Lemma ipv6_host_text_from pieces pieceIndex compress ignore0 :
  all is_host_text (ipv6_serialize_from pieces pieceIndex compress ignore0)
  = true.
Proof.
  revert pieceIndex ignore0.
  induction pieces as [|p pieces IH]; intros pieceIndex ignore0;
    [reflexivity|].
  cbn [ipv6_serialize_from].
  destruct (ignore0 && (p =? 0)%N); [apply IH|].
  destruct (match compress with Some k => Nat.eqb k pieceIndex | None => false end).
  - rewrite all_app, IH. now destruct (Nat.eqb pieceIndex 0).
  - rewrite !all_app, IH, hexadecimal_host_text.
    now destruct (Nat.eqb pieceIndex 7).
Qed.

Lemma opaque_char_host_text c s :
  is_forbidden_host_code_point c = false ->
  all is_host_text (percent_encode_c0 (utf8_encode (String c s))) =
  all is_host_text (percent_encode_c0 (utf8_encode s)).
Proof.
  destruct c as [[|] [|] [|] [|] [|] [|] [|] [|]];
    try (intros H; vm_compute in H; discriminate H); intros _; reflexivity.
Qed.

Lemma opaque_host_text input :
  any is_forbidden_host_code_point input = false ->
  all is_host_text (percent_encode_c0 (utf8_encode input)) = true.
Proof.
  induction input as [|c s IH]; [reflexivity|].
  cbn [any]. intros [Hc Hs]%orb_false_elim.
  rewrite (opaque_char_host_text c s Hc). now apply IH.
Qed.

Lemma allowed_domain_host_text name :
  any is_forbidden_domain_code_point name = false ->
  all is_host_text name = true.
Proof.
  induction name as [|c s IH]; [reflexivity|].
  cbn [any all]. intros [Hc Hs]%orb_false_elim.
  now rewrite (allowed_in_domain_host_text c Hc), IH.
Qed.

Section Parser.

Variable unicode_ToASCII : string -> option string.

Lemma host_parse_host_text isOpaque input h :
  host_parse unicode_ToASCII isOpaque input = Some h ->
  all is_host_text (host_serialize h) = true.
Proof.
  unfold host_parse.
  destruct (JS.startsWith input "[").
  { destruct (last_is "]" input); [|discriminate].
    destruct (ipv6_parse _) as [address|]; [|discriminate].
    intros [= <-]. cbn [host_serialize]. unfold ipv6_serialize.
    rewrite all_app. cbn [all]. rewrite all_app, ipv6_host_text_from.
    reflexivity. }
  destruct isOpaque.
  { unfold opaque_host_parse.
    destruct (any is_forbidden_host_code_point input) eqn:Hforbidden;
      [discriminate|].
    intros [= <-]. now apply opaque_host_text. }
  unfold domain_to_ASCII.
  destruct (if all is_ascii _ && negb (has_xn_label _) then _ else _)
    as [asciiDomain|]; [|discriminate].
  destruct (JS.falsy asciiDomain); [discriminate|].
  destruct (any is_forbidden_domain_code_point asciiDomain) eqn:Hforbidden;
    [discriminate|].
  destruct (ends_in_a_number asciiDomain).
  - destruct (ipv4_parse asciiDomain); [|discriminate].
    intros [= <-]. apply ipv4_host_text.
  - intros [= <-]. now apply allowed_domain_host_text.
Qed.

Lemma get_host_text scheme h p :
  all is_host_text (host_serialize h) = true ->
  all is_host_text (get_host (mk_url scheme (Some h) p)) = true.
Proof.
  intros Hh. unfold get_host. cbn [url_host url_port].
  destruct p as [p|]; [|exact Hh].
  rewrite all_app, Hh. cbn [append all]. apply decimal_host_text.
Qed.

Lemma authority_state_host_text scheme s url :
  authority_state unicode_ToASCII scheme s = Some url ->
  all is_host_text (get_host url) = true.
Proof.
  unfold authority_state.
  destruct (match after_last_at _ with Some b => (true, b) | None => _ end)
    as [atSignSeen buffer].
  destruct (atSignSeen && JS.falsy buffer); [discriminate|].
  destruct (host_state false buffer) as [b [after|]].
  - destruct (JS.falsy b); [discriminate|].
    destruct (host_parse _ _ _) as [h|] eqn:Hh; [|discriminate].
    destruct (port_state _ _); [|discriminate]. intros [= <-].
    apply get_host_text. now apply host_parse_host_text in Hh.
  - destruct (_ && _); [discriminate|].
    destruct (host_parse _ _ _) as [h|] eqn:Hh; [|discriminate].
    intros [= <-].
    apply get_host_text. now apply host_parse_host_text in Hh.
Qed.

Lemma file_state_host_text s url :
  file_state unicode_ToASCII s = Some url ->
  all is_host_text (get_host url) = true.
Proof.
  assert (Hhost : forall t, file_host_state unicode_ToASCII t = Some url ->
                            all is_host_text (get_host url) = true).
  { intros t. unfold file_host_state.
    destruct (is_windows_drive_letter _); [now intros [= <-]|].
    destruct (JS.falsy _); [now intros [= <-]|].
    destruct (host_parse _ _ _) as [h|] eqn:Hh; [|discriminate].
    intros [= <-]. apply get_host_text.
    apply host_parse_host_text in Hh.
    destruct h as [name| | | |]; try exact Hh.
    now destruct (String.eqb name "localhost"). }
  unfold file_state. destruct s as [|c0 [|c1 s]]; try now intros [= <-].
  destruct (is_slash c0 && is_slash c1); [apply Hhost|now intros [= <-]].
Qed.

Lemma URL_new_host_text input url :
  URL_new unicode_ToASCII input = Some url ->
  all is_host_text (host url) = true.
Proof.
  unfold URL_new, basic_URL_parse.
  destruct (scheme_start_state (clean input)) as [[scheme remaining]|];
    [|discriminate].
  destruct (String.eqb scheme "file").
  { destruct (file_state _ _) as [u|] eqn:Hu; [|discriminate].
    intros [= <-]. now apply file_state_host_text in Hu. }
  destruct (is_special scheme).
  { destruct (authority_state _ _ _) as [u|] eqn:Hu; [|discriminate].
    intros [= <-]. now apply authority_state_host_text in Hu. }
  destruct remaining as [|c0 [|c1 r]]; try now intros [= <-].
  destruct ((c0 == "/") && (c1 == "/")); [|now intros [= <-]].
  destruct (authority_state _ _ _) as [u|] eqn:Hu; [|discriminate].
  intros [= <-]. now apply authority_state_host_text in Hu.
Qed.

(** X13.  A host the generic validation returns is a host and nothing more:
    it is not empty and holds no "/", "\", "?", "#", "@" or space, so no
    path, query, fragment or user information of the input is stored with
    it. *)
Theorem validated_host_is_only_a_host
  (originParam h : string)
  (Hvalid : validateUrl (URL_new unicode_ToASCII) originParam "generic" =
            Return (success [h])) :
  h <> "" /\ all is_host_text h = true.
Proof.
  rewrite validateUrl_generic in Hvalid by reflexivity.
  assert (Hattempt : forall input,
             generic_try (URL_new unicode_ToASCII) input =
               Return (success [h]) ->
             h <> "" /\ all is_host_text h = true).
  { intros input Htry.
    destruct (generic_try_inv _ _ _ Htry) as (u & Hu & [= ->] & Hne & _).
    split; [exact Hne|]. now apply URL_new_host_text in Hu. }
  destruct (generic_try _ originParam) as [r|e] eqn:Hfirst.
  - injection Hvalid as ->. now apply (Hattempt originParam).
  - destruct (JS.startsWith originParam "http"); [discriminate|].
    destruct (generic_try _ ("http://" ++ originParam)) as [r|e'] eqn:Hsecond;
      [|discriminate].
    injection Hvalid as ->. now apply (Hattempt ("http://" ++ originParam)).
Qed.

End Parser.

End HostTextFacts.

Lemma validated_host_is_only_a_host_witness :
  "example.com:8080" <> "" /\
  WHATWG.all is_host_text "example.com:8080" = true.
Proof.
  apply (validated_host_is_only_a_host no_unicode_ToASCII
           "https://user:pw@Example.com:8080/a/b?c=d#e" "example.com:8080").
  rewrite validateUrl_generic by reflexivity. vm_compute. reflexivity.
Defined.

Section PathFacts.

Import WHATWG WHATWGFacts.

Local Infix "==" := Ascii.eqb (at level 70, no associativity).

Lemma strip_trailing_cons c s :
  is_printable c = true ->
  strip_trailing (String c s) = String c (strip_trailing s).
Proof.
  intros Hc. cbn [strip_trailing]. unfold is_printable in Hc.
  apply negb_true_iff in Hc. rewrite Hc. now destruct (strip_trailing s).
Qed.

(** The clean-up leaves a printable prefix and the "/" after it alone. *)
Lemma clean_prefix p rest :
  all is_printable p = true ->
  exists rest', clean (p ++ String "/" rest) = p ++ String "/" rest'.
Proof.
  intros Hp. exists (remove_tab_newline (strip_trailing rest)). unfold clean.
  assert (Hlead : strip_leading (p ++ String "/" rest) = p ++ String "/" rest).
  { destruct p as [|c p]; [reflexivity|].
    cbn [all] in Hp. apply andb_prop in Hp as [Hc _].
    unfold is_printable in Hc. apply negb_true_iff in Hc.
    cbn [append strip_leading]. now rewrite Hc. }
  rewrite Hlead. clear Hlead.
  induction p as [|c p IH].
  - cbn [append]. rewrite strip_trailing_cons by reflexivity. reflexivity.
  - cbn [all] in Hp. apply andb_prop in Hp as [Hc Hp].
    cbn [append]. rewrite strip_trailing_cons by exact Hc.
    cbn [remove_tab_newline].
    rewrite (printable_not_tab_newline c Hc). f_equal. now apply IH.
Qed.

End PathFacts.

Section StableFacts.

Import WHATWG WHATWGFacts.

Local Infix "==" := Ascii.eqb (at level 70, no associativity).

Lemma append_assoc (a b c : string) : (a ++ b) ++ c = a ++ (b ++ c).
Proof. induction a as [|x a IH]; [reflexivity|]. cbn [append]. now rewrite IH. Qed.

(** *** What hosts are written with *)

Lemma name_char_authority_text c :
  is_name_char c = true -> is_authority_text c = true.
Proof. by_code_unit c. Qed.

Lemma hex_or_colon_authority_text c :
  is_hex_or_colon c = true -> is_authority_text c = true.
Proof. by_code_unit c. Qed.

Lemma authority_text_inv c :
  is_authority_text c = true ->
  is_printable c = true /\ is_slash c = false /\
  ends_authority true c = false /\ (c == "@") = false.
Proof. by_code_unit c. Qed.

Lemma name_char_inv c :
  is_name_char c = true ->
  (c == ":") = false /\ (c == "[") = false /\ (c == "]") = false.
Proof. by_code_unit c. Qed.

Lemma hex_or_colon_inv c :
  is_hex_or_colon c = true -> (c == "[") = false /\ (c == "]") = false.
Proof. by_code_unit c. Qed.

Lemma hex_digit_hex_or_colon c :
  is_hex_digit c = true -> is_hex_or_colon c = true.
Proof. by_code_unit c. Qed.

Lemma digit_name_char c : is_digit c = true -> is_name_char c = true.
Proof. by_code_unit c. Qed.

Lemma digit_not_alpha c : is_digit c = true -> is_alpha c = false.
Proof. by_code_unit c. Qed.

Lemma allowed_in_domain_name_char c :
  is_forbidden_domain_code_point c = false -> is_name_char c = true.
Proof. by_code_unit c. Qed.

Lemma decimal_name_chars n : all is_name_char (decimal n) = true.
Proof.
  generalize (decimal_digits n). apply all_impl, digit_name_char.
Qed.

Lemma decimal_first n :
  exists c rest, decimal n = String c rest /\ is_digit c = true.
Proof.
  pose proof (decimal_digits n) as Hdigits.
  assert (Hne : decimal n <> "").
  { unfold decimal, DecimalString.NilZero.string_of_uint.
    destruct (N.to_uint n); discriminate. }
  destruct (decimal n) as [|c rest]; [congruence|].
  cbn [all] in Hdigits. apply andb_prop in Hdigits as [Hc _]. eauto.
Qed.

Lemma ipv4_name_chars address : all is_name_char (ipv4_serialize address) = true.
Proof.
  unfold ipv4_serialize.
  repeat (rewrite all_app, decimal_name_chars; cbn [all andb append];
          try change (is_name_char ".") with true; cbn [andb]).
  apply decimal_name_chars.
Qed.

Lemma ipv6_inner_chars pieces pieceIndex compress ignore0 :
  all is_hex_or_colon (ipv6_serialize_from pieces pieceIndex compress ignore0)
  = true.
Proof.
  assert (Hhex : forall n, all is_hex_or_colon (hexadecimal n) = true).
  { intros n. generalize (hexadecimal_digits n).
    apply all_impl, hex_digit_hex_or_colon. }
  revert pieceIndex ignore0.
  induction pieces as [|p pieces IH]; intros pieceIndex ignore0;
    [reflexivity|].
  cbn [ipv6_serialize_from].
  destruct (ignore0 && (p =? 0)%N); [apply IH|].
  destruct (match compress with Some k => Nat.eqb k pieceIndex | None => false end).
  - rewrite all_app, IH. now destruct (Nat.eqb pieceIndex 0).
  - rewrite !all_app, IH, Hhex. now destruct (Nat.eqb pieceIndex 7).
Qed.

Lemma opaque_char_name_chars c s :
  is_forbidden_host_code_point c = false ->
  all is_name_char (percent_encode_c0 (utf8_encode (String c s))) =
  all is_name_char (percent_encode_c0 (utf8_encode s)).
Proof.
  destruct c as [[|] [|] [|] [|] [|] [|] [|] [|]];
    try (intros H; vm_compute in H; discriminate H); intros _; reflexivity.
Qed.

Lemma opaque_name_chars input :
  any is_forbidden_host_code_point input = false ->
  all is_name_char (percent_encode_c0 (utf8_encode input)) = true.
Proof.
  induction input as [|c s IH]; [reflexivity|].
  cbn [any]. intros [Hc Hs]%orb_false_elim.
  rewrite (opaque_char_name_chars c s Hc). now apply IH.
Qed.

Lemma allowed_domain_name_chars name :
  any is_forbidden_domain_code_point name = false ->
  all is_name_char name = true.
Proof.
  induction name as [|c s IH]; [reflexivity|].
  cbn [any all]. intros [Hc Hs]%orb_false_elim.
  now rewrite (allowed_in_domain_name_char c Hc), IH.
Qed.

Lemma host_parse_text unicode_ToASCII isOpaque input h :
  host_parse unicode_ToASCII isOpaque input = Some h ->
  host_text (host_serialize h).
Proof.
  unfold host_parse.
  destruct (JS.startsWith input "[").
  { destruct (last_is "]" input); [|discriminate].
    destruct (ipv6_parse _) as [address|]; [|discriminate].
    intros [= <-]. cbn [host_serialize]. apply text_ipv6.
    apply ipv6_inner_chars. }
  destruct isOpaque.
  { unfold opaque_host_parse.
    destruct (any is_forbidden_host_code_point input) eqn:Hforbidden;
      [discriminate|].
    intros [= <-]. apply text_name. now apply opaque_name_chars. }
  unfold domain_to_ASCII.
  destruct (if all is_ascii _ && negb (has_xn_label _) then _ else _)
    as [asciiDomain|]; [|discriminate].
  destruct (JS.falsy asciiDomain); [discriminate|].
  destruct (any is_forbidden_domain_code_point asciiDomain) eqn:Hforbidden;
    [discriminate|].
  destruct (ends_in_a_number asciiDomain).
  - destruct (ipv4_parse asciiDomain); [|discriminate].
    intros [= <-]. apply text_ipv4.
  - intros [= <-]. apply text_name. now apply allowed_domain_name_chars.
Qed.

Lemma host_text_authority_text d :
  host_text d -> all is_authority_text d = true.
Proof.
  intros [name Hname|address|inner Hinner].
  - revert Hname. apply all_impl, name_char_authority_text.
  - generalize (ipv4_name_chars address).
    apply all_impl, name_char_authority_text.
  - cbn [append all]. rewrite all_app. cbn [all].
    rewrite (all_impl _ _ inner hex_or_colon_authority_text Hinner).
    reflexivity.
Qed.

(** *** The host state on a serialized host *)

Lemma host_state_name name :
  all is_name_char name = true ->
  host_state false name = (name, None) /\
  forall r, host_state false (name ++ String ":" r) = (name, Some r).
Proof.
  induction name as [|c s IH]; [split; reflexivity|].
  cbn [all]. intros [Hc Hs]%andb_prop.
  destruct (name_char_inv c Hc) as (Hcolon & Hopen & Hclose).
  destruct (IH Hs) as [IH1 IH2]. split.
  - cbn [host_state]. rewrite Hcolon, Hopen, Hclose. cbn [andb].
    now rewrite IH1.
  - intros r. cbn [append host_state]. rewrite Hcolon, Hopen, Hclose.
    cbn [andb]. now rewrite IH2.
Qed.

Lemma host_state_inside inner :
  all is_hex_or_colon inner = true ->
  host_state true (inner ++ "]") = (inner ++ "]", None) /\
  forall r,
    host_state true (inner ++ String "]" (String ":" r)) =
    (inner ++ "]", Some r).
Proof.
  induction inner as [|c s IH]; [split; reflexivity|].
  cbn [all]. intros [Hc Hs]%andb_prop.
  destruct (hex_or_colon_inv c Hc) as (Hopen & Hclose).
  destruct (IH Hs) as [IH1 IH2]. split.
  - cbn [append host_state]. rewrite Hopen, Hclose, andb_false_r.
    now rewrite IH1.
  - intros r. cbn [append host_state]. rewrite Hopen, Hclose, andb_false_r.
    now rewrite IH2.
Qed.

Lemma host_state_text d :
  host_text d ->
  host_state false d = (d, None) /\
  forall r, host_state false (d ++ String ":" r) = (d, Some r).
Proof.
  intros [name Hname|address|inner Hinner].
  - now apply host_state_name.
  - apply host_state_name, ipv4_name_chars.
  - destruct (host_state_inside inner Hinner) as [H1 H2]. split.
    + cbn [append host_state]. change ("[" == ":") with false.
      change ("[" == "[") with true. cbv iota. cbn [andb]. now rewrite H1.
    + intros r. cbn [append host_state]. change ("[" == ":") with false.
      change ("[" == "[") with true. cbv iota. cbn [andb].
      rewrite append_assoc. cbn [append]. now rewrite H2.
Qed.

(** *** Text that is the whole authority of an http URL *)

Section AuthorityText.

Variable s : string.
Hypothesis authority_text : all is_authority_text s = true.

Lemma text_printable : all is_printable s = true.
Proof.
  revert authority_text. apply all_impl. intros c Hc.
  now apply authority_text_inv.
Qed.

Lemma text_clean : clean s = s.
Proof. apply clean_id, text_printable. Qed.

Lemma text_clean_http : clean ("http://" ++ s) = "http://" ++ s.
Proof. apply clean_id. rewrite all_app. apply text_printable. Qed.

Lemma text_skip_slashes : skip_slashes s = s.
Proof.
  revert authority_text. destruct s as [|c t]; [reflexivity|].
  cbn [all]. intros [Hc _]%andb_prop.
  apply authority_text_inv in Hc as (_ & Hslash & _).
  cbn [skip_slashes]. now rewrite Hslash.
Qed.

Lemma text_authority : authority_of true s = s.
Proof.
  revert authority_text. induction s as [|c t IH]; [reflexivity|].
  cbn [all]. intros [Hc Ht]%andb_prop.
  apply authority_text_inv in Hc as (_ & _ & Hend & _).
  cbn [authority_of]. now rewrite Hend, (IH Ht).
Qed.

Lemma text_no_at : after_last_at s = None.
Proof.
  revert authority_text. induction s as [|c t IH]; [reflexivity|].
  cbn [all]. intros [Hc Ht]%andb_prop.
  apply authority_text_inv in Hc as (_ & _ & _ & Hat).
  cbn [after_last_at]. now rewrite (IH Ht), Hat.
Qed.

Variable unicode_ToASCII : string -> option string.

Lemma text_URL_new_http :
  URL_new unicode_ToASCII ("http://" ++ s) =
  match host_state false s with
  | (buffer, Some after_colon) =>
      if JS.falsy buffer then None
      else
        match host_parse unicode_ToASCII false buffer with
        | None => None
        | Some h =>
            match port_state "http" after_colon with
            | None => None
            | Some p =>
                let url := mk_url "http" (Some h) p in
                Some (mkURL "http:" (get_host url) (get_port url))
            end
        end
  | (buffer, None) =>
      if JS.falsy buffer then None
      else
        match host_parse unicode_ToASCII false buffer with
        | None => None
        | Some h => Some (mkURL "http:" (host_serialize h) "")
        end
  end.
Proof.
  unfold URL_new, basic_URL_parse. rewrite text_clean_http.
  change (scheme_start_state ("http://" ++ s)) with (Some ("http", "//" ++ s)).
  change (String.eqb "http" "file") with false.
  change (is_special "http") with true. cbv iota.
  change (skip_slashes ("//" ++ s)) with (skip_slashes s).
  rewrite text_skip_slashes. unfold authority_state.
  change (is_special "http") with true.
  rewrite text_authority, text_no_at. cbv iota. cbn [andb].
  destruct (host_state false s) as [buffer [after_colon|]].
  - destruct (JS.falsy buffer); [reflexivity|]. cbn [negb].
    destruct (host_parse unicode_ToASCII false buffer); [|reflexivity].
    destruct (port_state "http" after_colon); reflexivity.
  - destruct (JS.falsy buffer); [reflexivity|]. cbn [negb].
    destruct (host_parse unicode_ToASCII false buffer); reflexivity.
Qed.

End AuthorityText.

Lemma host_state_split inside s d :
  (host_state inside s = (d, None) -> s = d) /\
  (forall r, host_state inside s = (d, Some r) -> s = d ++ String ":" r).
Proof.
  revert inside d. induction s as [|c s IH]; intros inside d.
  - split; [now intros [= <-]|intros r [=]].
  - cbn [host_state].
    destruct ((c == ":") && negb inside) eqn:Hcolon.
    + apply andb_prop in Hcolon as [Hc _]. apply Ascii.eqb_eq in Hc. subst c.
      split; [intros [=]|]. now intros r [= <- <-].
    + set (inside' := if c == "[" then true
                      else if c == "]" then false else inside).
      destruct (host_state inside' s) as [buffer after] eqn:Hstate.
      destruct (IH inside' buffer) as [IH1 IH2]. split.
      * intros [= <- ->]. f_equal. now apply IH1.
      * intros r [= <- ->]. cbn [append]. f_equal. now apply IH2.
Qed.

Lemma scheme_state_no_colon s :
  all (fun c => negb (c == ":")) s = true -> scheme_state s = None.
Proof.
  induction s as [|c s IH]; [reflexivity|].
  cbn [all]. intros [Hc Hs]%andb_prop. apply negb_true_iff in Hc.
  cbn [scheme_state]. rewrite (IH Hs), Hc. now destruct (is_scheme_char c).
Qed.

Lemma scheme_state_name name r :
  all is_name_char name = true ->
  scheme_state (name ++ String ":" r) =
  if all is_scheme_char name then Some (ascii_lowercase name, r) else None.
Proof.
  induction name as [|c s IH]; [reflexivity|].
  cbn [all]. intros [Hc Hs]%andb_prop.
  destruct (name_char_inv c Hc) as (Hcolon & _).
  cbn [append scheme_state ascii_lowercase]. rewrite (IH Hs), Hcolon.
  destruct (is_scheme_char c); [|reflexivity]. cbn [andb].
  now destruct (all is_scheme_char s).
Qed.

Lemma name_chars_no_colon name :
  all is_name_char name = true ->
  all (fun c => negb (c == ":")) name = true.
Proof.
  apply all_impl. intros c Hc. destruct (name_char_inv c Hc) as (-> & _).
  reflexivity.
Qed.

Lemma stable_host_text unicode_ToASCII d :
  stable_host unicode_ToASCII d = true ->
  host_text d /\
  exists h, host_parse unicode_ToASCII false d = Some h /\
            host_serialize h = d.
Proof.
  unfold stable_host.
  destruct (host_parse unicode_ToASCII false d) as [h|] eqn:Hh;
    [|discriminate].
  intros Heq%String.eqb_eq. split; [|eauto].
  rewrite <- Heq. now apply host_parse_text in Hh.
Qed.

Lemma stable_port_inv digits :
  stable_port digits = true ->
  exists p, digits = decimal p /\ (p <=? 65535)%N = true /\
            (p =? 80)%N = false.
Proof.
  unfold stable_port. cbv zeta.
  intros [[Heq Hrange]%andb_prop Hdefault%negb_true_iff]%andb_prop.
  apply String.eqb_eq in Heq. exists (number 10 digits). auto.
Qed.

Lemma host_text_not_empty unicode_ToASCII d :
  stable_host unicode_ToASCII d = true -> JS.falsy d = false.
Proof.
  unfold stable_host, host_parse. destruct d as [|c d]; [|reflexivity].
  cbn. destruct (unicode_ToASCII ""); discriminate.
Qed.

(** *** Validating a stable origin *)

Lemma host_text_cases d :
  host_text d ->
  all is_name_char d = true \/ exists inner, d = "[" ++ inner ++ "]".
Proof.
  intros [name Hname|address|inner Hinner]; eauto.
  left. apply ipv4_name_chars.
Qed.

Lemma digit_not_a_slash c : is_digit c = true -> is_slash c = false.
Proof. by_code_unit c. Qed.

Section StableOrigin.

Variable unicode_ToASCII : string -> option string.

Lemma stable_origin_inv h :
  stable_origin unicode_ToASCII h = true ->
  JS.startsWith h "http" = false /\
  exists d,
    stable_host unicode_ToASCII d = true /\
    ((h = d /\ host_state false h = (d, None)) \/
     exists p,
       h = d ++ String ":" (decimal p) /\
       host_state false h = (d, Some (decimal p)) /\
       (p <=? 65535)%N = true /\ (p =? 80)%N = false /\
       needs_host (ascii_lowercase d) = false).
Proof.
  unfold stable_origin. intros [Hhttp%negb_true_iff Hparts]%andb_prop.
  split; [exact Hhttp|].
  destruct (host_state false h) as [d [digits|]] eqn:Hstate.
  - apply andb_prop in Hparts as [[Hd Hp]%andb_prop Hs%negb_true_iff].
    destruct (stable_port_inv digits Hp) as (p & -> & Hrange & Hdefault).
    exists d. split; [exact Hd|]. right. exists p.
    split; [|auto].
    now apply (proj2 (host_state_split false h d)).
  - exists d. split; [exact Hparts|]. left. split; [|reflexivity].
    now apply (proj1 (host_state_split false h d)).
Qed.

Lemma stable_origin_text h :
  stable_origin unicode_ToASCII h = true -> all is_authority_text h = true.
Proof.
  intros (_ & d & Hd & Hform)%stable_origin_inv.
  apply stable_host_text in Hd as [Htext _].
  apply host_text_authority_text in Htext.
  destruct Hform as [[-> _]|(p & -> & _)]; [exact Htext|].
  rewrite all_app, Htext. cbn [all].
  generalize (decimal_name_chars p). apply all_impl, name_char_authority_text.
Qed.

(** [new URL(h)] throws, or reads the host as a scheme and finds no host. *)
Lemma stable_direct_attempt h :
  stable_origin unicode_ToASCII h = true ->
  exists e, generic_try (URL_new unicode_ToASCII) h = Throw e.
Proof.
  intros Hstable. pose proof (stable_origin_text h Hstable) as Htext.
  apply stable_origin_inv in Hstable as (_ & d & Hd & Hform).
  pose proof (host_text_not_empty _ _ Hd) as Hne.
  apply stable_host_text in Hd as [Hshape _].
  unfold generic_try, new_URL, URL_new, basic_URL_parse.
  rewrite (text_clean h Htext).
  destruct (host_text_cases d Hshape) as [Hname|[inner ->]].
  2:{ assert (Hstart : scheme_start_state h = None)
        by (destruct Hform as [[-> _]|(p & -> & _)]; reflexivity).
      rewrite Hstart. cbn. eauto. }
  destruct Hform as [[-> _]|(p & -> & _ & _ & _ & Hscheme)].
  - assert (Hstart : scheme_start_state d = None).
    { unfold scheme_start_state. destruct d as [|c d']; [reflexivity|].
      rewrite (scheme_state_no_colon _ (name_chars_no_colon _ Hname)).
      now destruct (is_alpha c). }
    rewrite Hstart. cbn. eauto.
  - unfold scheme_start_state.
    destruct d as [|c d'] eqn:Hdeq; [discriminate|].
    cbn [append]. destruct (is_alpha c); [|cbn; eauto].
    change (String c (d' ++ String ":" (decimal p)))
      with (String c d' ++ String ":" (decimal p)).
    rewrite (scheme_state_name _ _ Hname).
    destruct (all is_scheme_char (String c d')); [|cbn; eauto].
    destruct (decimal_first p) as (c0 & rest & -> & Hc0).
    unfold needs_host in Hscheme.
    destruct (String.eqb (ascii_lowercase (String c d')) "file") eqn:Hfile.
    + unfold file_state. rewrite (digit_not_a_slash c0 Hc0).
      destruct rest; cbn; eauto.
    + rewrite andb_true_r in Hscheme. rewrite Hscheme.
      rewrite (digit_not_slash c0 Hc0). destruct rest; cbn; eauto.
Qed.

(** [new URL("http://" + h)] has the host [h]. *)
Lemma stable_retry h :
  stable_origin unicode_ToASCII h = true ->
  exists port_text,
    URL_new unicode_ToASCII ("http://" ++ h) = Some (mkURL "http:" h port_text)
    /\ (port_text = "" -> host_state false h = (h, None)).
Proof.
  intros Hstable. pose proof (stable_origin_text h Hstable) as Htext.
  apply stable_origin_inv in Hstable as (_ & d & Hd & Hform).
  pose proof (host_text_not_empty _ _ Hd) as Hne.
  apply stable_host_text in Hd as (_ & hst & Hparse & Hserialize).
  rewrite (text_URL_new_http h Htext).
  destruct Hform as [[-> Hstate]|(p & -> & Hstate & Hrange & Hdefault & _)];
    rewrite Hstate, Hne, Hparse.
  - exists "". rewrite Hserialize. split; [reflexivity|]. now intros _.
  - rewrite (port_state_http p Hrange Hdefault). exists (decimal p).
    unfold get_host, get_port. cbn [url_host url_port].
    rewrite Hserialize. split; [reflexivity|].
    intros Hempty. destruct (decimal_first p) as (c0 & rest & Hp & _).
    congruence.
Qed.

(** The host of a URL with a port is a serialized host, ":" and the port. *)
Lemma authority_state_port scheme s url :
  authority_state unicode_ToASCII scheme s = Some url ->
  get_port url = "" \/
  exists d, host_text d /\ get_host url = d ++ String ":" (get_port url).
Proof.
  unfold authority_state.
  destruct (match after_last_at _ with Some b => (true, b) | None => _ end)
    as [atSignSeen buffer].
  destruct (atSignSeen && JS.falsy buffer); [discriminate|].
  destruct (host_state false buffer) as [b [after|]].
  - destruct (JS.falsy b); [discriminate|].
    destruct (host_parse _ _ _) as [h|] eqn:Hh; [|discriminate].
    destruct (port_state _ _) as [[p|]|]; [| |discriminate]; intros [= <-].
    + right. exists (host_serialize h).
      split; [now apply host_parse_text in Hh|reflexivity].
    + now left.
  - destruct (_ && _); [discriminate|].
    destruct (host_parse _ _ _) as [h|]; [|discriminate].
    intros [= <-]. now left.
Qed.

Lemma file_state_port s url :
  file_state unicode_ToASCII s = Some url -> get_port url = "".
Proof.
  assert (Hhost : forall t, file_host_state unicode_ToASCII t = Some url ->
                            get_port url = "").
  { intros t. unfold file_host_state.
    destruct (is_windows_drive_letter _); [now intros [= <-]|].
    destruct (JS.falsy _); [now intros [= <-]|].
    destruct (host_parse _ _ _); [|discriminate]. now intros [= <-]. }
  unfold file_state. destruct s as [|c0 [|c1 s]]; try now intros [= <-].
  destruct (is_slash c0 && is_slash c1); [apply Hhost|now intros [= <-]].
Qed.

Lemma URL_new_port input url :
  URL_new unicode_ToASCII input = Some url ->
  port url = "" \/
  exists d, host_text d /\ host url = d ++ String ":" (port url).
Proof.
  unfold URL_new, basic_URL_parse.
  destruct (scheme_start_state (clean input)) as [[scheme remaining]|];
    [|discriminate].
  destruct (String.eqb scheme "file").
  { destruct (file_state _ _) as [u|] eqn:Hu; [|discriminate].
    intros [= <-]. left. now apply file_state_port in Hu. }
  destruct (is_special scheme).
  { destruct (authority_state _ _ _) as [u|] eqn:Hu; [|discriminate].
    intros [= <-]. now apply authority_state_port in Hu. }
  destruct remaining as [|c0 [|c1 r]]; try (intros [= <-]; now left).
  destruct ((c0 == "/") && (c1 == "/")); [|intros [= <-]; now left].
  destruct (authority_state _ _ _) as [u|] eqn:Hu; [|discriminate].
  intros [= <-]. now apply authority_state_port in Hu.
Qed.

(** A validated host that is written without a port has a second label. *)
Lemma validated_host_without_port originParam h :
  validateUrl (URL_new unicode_ToASCII) originParam "generic" =
    Return (success [h]) ->
  host_state false h = (h, None) ->
  Nat.eqb (List.length (JS.split "." h)) 1 = false.
Proof.
  intros Hvalid Hstate.
  assert (Hattempt : forall input,
             generic_try (URL_new unicode_ToASCII) input =
               Return (success [h]) ->
             Nat.eqb (List.length (JS.split "." h)) 1 = false).
  { intros input Htry.
    destruct (generic_try_inv _ _ _ Htry) as (u & Hu & [= Hh] & _ & Hok).
    destruct Hok as [Hlabels|Hport]; [subst h; now apply Nat.eqb_neq|].
    destruct (URL_new_port _ _ Hu) as [Hempty|(d & Hd & Hhost)];
      [contradiction|].
    rewrite <- Hh in Hhost. rewrite Hhost in Hstate.
    rewrite (proj2 (host_state_text d Hd)) in Hstate. discriminate. }
  rewrite validateUrl_generic in Hvalid by reflexivity.
  destruct (generic_try _ originParam) as [r|e] eqn:Hfirst.
  - injection Hvalid as ->. now apply (Hattempt originParam).
  - destruct (JS.startsWith originParam "http"); [discriminate|].
    destruct (generic_try _ ("http://" ++ originParam)) as [r|e'] eqn:Hsecond;
      [|discriminate].
    injection Hvalid as ->. now apply (Hattempt ("http://" ++ originParam)).
Qed.

(** A validated origin that is stable validates to itself. *)
Lemma stable_origin_revalidates originParam h :
  validateUrl (URL_new unicode_ToASCII) originParam "generic" =
    Return (success [h]) ->
  stable_origin unicode_ToASCII h = true ->
  validateUrl (URL_new unicode_ToASCII) h "generic" = Return (success [h]).
Proof.
  intros Hvalid Hstable.
  rewrite validateUrl_generic by reflexivity.
  destruct (stable_direct_attempt h Hstable) as [e ->].
  destruct (stable_origin_inv h Hstable) as (-> & _).
  destruct (stable_retry h Hstable) as (port_text & Hurl & Hport).
  assert (Hne : JS.falsy h = false).
  { apply stable_origin_inv in Hstable as (_ & d & Hd & Hform).
    apply host_text_not_empty in Hd.
    destruct Hform as [[-> _]|(p & -> & _)]; [exact Hd|].
    now destruct d. }
  unfold generic_try, new_URL. rewrite Hurl. cbn [bind host port].
  rewrite Hne.
  destruct port_text as [|c rest]; [|now rewrite andb_false_r].
  now rewrite (validated_host_without_port originParam h Hvalid (Hport eq_refl)).
Qed.

End StableOrigin.

End StableFacts.

(** * Validating an origin again *)

Section FixedPointFacts.

Import WHATWG WHATWGFacts.

Local Infix "==" := Ascii.eqb (at level 70, no associativity).

(** *** A port number read as a host *)

Lemma checked_below_spec check n :
  fst (checked_below check n) = n /\
  (snd (checked_below check n) = true ->
   forall k, (k < n)%N -> check k = true).
Proof.
  induction n as [|n [Hfst Hsnd]] using N.peano_ind.
  - split; [reflexivity|]. intros _ k Hk. lia.
  - unfold checked_below in *. rewrite N.iter_succ.
    destruct (N.iter n _ _) as [k0 b]. simpl in *. subst k0.
    split; [reflexivity|].
    intros [Hb Hn]%andb_prop k Hk.
    destruct (N.eq_dec k n) as [->|Hne]; [exact Hn|].
    apply Hsnd; [exact Hb|lia].
Qed.

Lemma decimal_host_ports : snd (checked_below decimal_host_ok 65536) = true.
Proof. vm_compute. reflexivity. Qed.

Lemma to_lower_alpha c : is_lower_alpha (to_lower c) = true -> is_alpha c = true.
Proof. by_code_unit c. Qed.

Lemma alpha_name_char c : is_alpha c = true -> is_name_char c = true.
Proof. by_code_unit c. Qed.

Lemma lowercase_alpha d :
  all is_lower_alpha (ascii_lowercase d) = true -> all is_alpha d = true.
Proof.
  induction d as [|c d IH]; [reflexivity|].
  cbn [ascii_lowercase all]. intros [Hc Hd]%andb_prop.
  now rewrite (to_lower_alpha c Hc), (IH Hd).
Qed.

Lemma needs_host_inv scheme :
  needs_host scheme = true ->
  all is_lower_alpha scheme = true /\ JS.falsy scheme = false /\
  String.eqb scheme "file" = false /\ is_special scheme = true.
Proof.
  unfold needs_host. intros [Hspecial Hfile%negb_true_iff]%andb_prop.
  assert (Hlower : all is_lower_alpha scheme = true /\ JS.falsy scheme = false).
  { unfold is_special in Hspecial. rewrite Hfile in Hspecial.
    repeat match type of Hspecial with
           | (_ || _) = true => apply orb_prop in Hspecial as [Hspecial|Hspecial]
           end;
      try discriminate; apply String.eqb_eq in Hspecial; subst scheme;
      split; reflexivity. }
  tauto.
Qed.

Section Parser.

Variable unicode_ToASCII : string -> option string.

Lemma text_authority_state scheme s :
  all is_authority_text s = true -> is_special scheme = true ->
  authority_state unicode_ToASCII scheme s =
  match host_state false s with
  | (buffer, Some after_colon) =>
      if JS.falsy buffer then None
      else
        match host_parse unicode_ToASCII false buffer with
        | None => None
        | Some h =>
            match port_state scheme after_colon with
            | None => None
            | Some p => Some (mk_url scheme (Some h) p)
            end
        end
  | (buffer, None) =>
      if JS.falsy buffer then None
      else
        match host_parse unicode_ToASCII false buffer with
        | None => None
        | Some h => Some (mk_url scheme (Some h) None)
        end
  end.
Proof.
  intros Htext Hspecial. unfold authority_state.
  rewrite Hspecial, (text_authority s Htext), (text_no_at s Htext).
  cbv iota. cbn [andb negb]. reflexivity.
Qed.

(** The text of a port number is parsed as an IPv4 address. *)
Lemma decimal_host_parse p :
  (p <=? 65535)%N = true ->
  exists address,
    host_parse unicode_ToASCII false (decimal p) = Some (ipv4 address) /\
    JS.falsy (ipv4_serialize address) = false /\
    Nat.eqb (List.length (JS.split "." (ipv4_serialize address))) 1 = false.
Proof.
  intros Hp%N.leb_le.
  assert (Hok : decimal_host_ok p = true).
  { apply (proj2 (checked_below_spec decimal_host_ok 65536) decimal_host_ports).
    lia. }
  unfold decimal_host_ok in Hok. cbv zeta in Hok.
  apply andb_prop in Hok as [Hok Haddress].
  apply andb_prop in Hok as [Hok Hnumber].
  apply andb_prop in Hok as [Hok Hforbidden%negb_true_iff].
  apply andb_prop in Hok as [Hok Hne%negb_true_iff].
  apply andb_prop in Hok as [Hok Hlower%String.eqb_eq].
  apply andb_prop in Hok as [Hok Hxn%negb_true_iff].
  apply andb_prop in Hok as [Hok Hascii].
  apply andb_prop in Hok as [Hopen%negb_true_iff Hdecode%String.eqb_eq].
  destruct (ipv4_parse (decimal p)) as [address|] eqn:Hparse; [|discriminate].
  apply andb_prop in Haddress as [Hserialized%negb_true_iff Hlabels%negb_true_iff].
  exists address. split; [|auto].
  unfold host_parse, domain_to_ASCII.
  rewrite Hopen, Hdecode, Hascii, Hxn. cbn [andb negb].
  rewrite Hlower, Hne, Hforbidden, Hnumber, Hparse. reflexivity.
Qed.


Lemma host_text_empty : host_text "".
Proof. now apply text_name. Qed.

(** What [url.host] can be: a serialized host, then ":" and a port if the URL
    has one. *)
Lemma authority_state_shape scheme s url :
  authority_state unicode_ToASCII scheme s = Some url ->
  exists d, host_text d /\
    (get_host url = d \/ exists p, get_host url = d ++ String ":" (decimal p)).
Proof.
  unfold authority_state.
  destruct (match after_last_at _ with Some b => (true, b) | None => _ end)
    as [atSignSeen buffer].
  destruct (atSignSeen && JS.falsy buffer); [discriminate|].
  destruct (host_state false buffer) as [b [after|]].
  - destruct (JS.falsy b); [discriminate|].
    destruct (host_parse _ _ _) as [h|] eqn:Hh; [|discriminate].
    apply host_parse_text in Hh.
    destruct (port_state _ _) as [[p|]|]; [| |discriminate]; intros [= <-];
      exists (host_serialize h); (split; [exact Hh|]).
    + right. now exists p.
    + now left.
  - destruct (_ && _); [discriminate|].
    destruct (host_parse _ _ _) as [h|] eqn:Hh; [|discriminate].
    apply host_parse_text in Hh.
    intros [= <-]. exists (host_serialize h). split; [exact Hh|now left].
Qed.

Lemma file_state_shape s url :
  file_state unicode_ToASCII s = Some url ->
  exists d, host_text d /\ get_host url = d.
Proof.
  assert (Hempty : forall u, Some (mk_url "file" (Some empty_host) None) = Some u ->
                             exists d, host_text d /\ get_host u = d).
  { intros u [= <-]. exists "". split; [apply host_text_empty|reflexivity]. }
  assert (Hhost : forall t, file_host_state unicode_ToASCII t = Some url ->
                            exists d, host_text d /\ get_host url = d).
  { intros t. unfold file_host_state.
    destruct (is_windows_drive_letter _); [apply Hempty|].
    destruct (JS.falsy _); [apply Hempty|].
    destruct (host_parse _ _ _) as [h|] eqn:Hh; [|discriminate].
    apply host_parse_text in Hh.
    assert (Hkept : Some (mk_url "file" (Some h) None) = Some url ->
                    exists d, host_text d /\ get_host url = d).
    { intros [= <-]. now exists (host_serialize h). }
    destruct h as [name| | | |]; try exact Hkept.
    destruct (String.eqb name "localhost"); [apply Hempty|exact Hkept]. }
  unfold file_state. destruct s as [|c0 [|c1 s]]; try apply Hempty.
  destruct (is_slash c0 && is_slash c1); [apply Hhost|apply Hempty].
Qed.

Lemma URL_new_shape input url :
  URL_new unicode_ToASCII input = Some url ->
  exists d, host_text d /\
    (host url = d \/ exists p, host url = d ++ String ":" (decimal p)).
Proof.
  assert (Hnull : forall scheme u,
             Some (mkURL (get_protocol (mk_url scheme None None))
                         (get_host (mk_url scheme None None))
                         (get_port (mk_url scheme None None))) = Some u ->
             exists d, host_text d /\
               (host u = d \/ exists p, host u = d ++ String ":" (decimal p))).
  { intros scheme u [= <-]. exists "". split; [apply host_text_empty|now left]. }
  unfold URL_new, basic_URL_parse.
  destruct (scheme_start_state (clean input)) as [[scheme remaining]|];
    [|discriminate].
  destruct (String.eqb scheme "file").
  { destruct (file_state _ _) as [u|] eqn:Hu; [|discriminate].
    intros [= <-]. apply file_state_shape in Hu as (d & Hd & Hhost).
    exists d. split; [exact Hd|now left]. }
  destruct (is_special scheme).
  { destruct (authority_state _ _ _) as [u|] eqn:Hu; [|discriminate].
    intros [= <-]. now apply authority_state_shape in Hu. }
  destruct remaining as [|c0 [|c1 r]]; try apply Hnull.
  destruct ((c0 == "/") && (c1 == "/")); [|apply Hnull].
  destruct (authority_state _ _ _) as [u|] eqn:Hu; [|discriminate].
  intros [= <-]. now apply authority_state_shape in Hu.
Qed.

Lemma validated_shape originParam h :
  validateUrl (URL_new unicode_ToASCII) originParam "generic" =
    Return (success [h]) ->
  exists d, host_text d /\
    (h = d \/ exists p, h = d ++ String ":" (decimal p)).
Proof.
  intros Hvalid.
  assert (Hattempt : forall input,
             generic_try (URL_new unicode_ToASCII) input =
               Return (success [h]) ->
             exists d, host_text d /\
               (h = d \/ exists p, h = d ++ String ":" (decimal p))).
  { intros input Htry.
    destruct (generic_try_inv _ _ _ Htry) as (u & Hu & [= ->] & _).
    now apply URL_new_shape in Hu. }
  rewrite validateUrl_generic in Hvalid by reflexivity.
  destruct (generic_try _ originParam) as [r|e] eqn:Hfirst.
  - injection Hvalid as ->. now apply (Hattempt originParam).
  - destruct (JS.startsWith originParam "http"); [discriminate|].
    destruct (generic_try _ ("http://" ++ originParam)) as [r|e'] eqn:Hsecond;
      [|discriminate].
    injection Hvalid as ->. now apply (Hattempt ("http://" ++ originParam)).
Qed.

Lemma decimal_authority_text p : all is_authority_text (decimal p) = true.
Proof.
  generalize (decimal_name_chars p). apply all_impl, name_char_authority_text.
Qed.

Lemma shape_authority_text h d :
  host_text d -> (h = d \/ exists p, h = d ++ String ":" (decimal p)) ->
  all is_authority_text h = true.
Proof.
  intros Hd%host_text_authority_text [->|(p & ->)]; [exact Hd|].
  rewrite all_app, Hd. cbn [all]. now rewrite decimal_authority_text.
Qed.

(** [new URL(h)] on a host with a port never gives [h] back: it fails, finds
    no host, or reads the port as the host. *)
Lemma direct_attempt_not_fixed h d :
  host_text d -> (h = d \/ exists p, h = d ++ String ":" (decimal p)) ->
  generic_try (URL_new unicode_ToASCII) h <> Return (success [h]).
Proof.
  intros Hd Hform Htry.
  pose proof (shape_authority_text h d Hd Hform) as Htext.
  destruct (generic_try_inv _ _ _ Htry) as (u & Hu & [= Hh] & Hne & _).
  unfold URL_new, basic_URL_parse in Hu. rewrite (text_clean h Htext) in Hu.
  destruct (host_text_cases d Hd) as [Hname|[inner ->]].
  2:{ assert (Hstart : scheme_start_state h = None)
        by (destruct Hform as [->|(p & ->)]; reflexivity).
      rewrite Hstart in Hu. discriminate. }
  destruct Hform as [->|(p & ->)].
  - assert (Hstart : scheme_start_state d = None).
    { unfold scheme_start_state. destruct d as [|c d']; [reflexivity|].
      rewrite (scheme_state_no_colon _ (name_chars_no_colon _ Hname)).
      now destruct (is_alpha c). }
    rewrite Hstart in Hu. discriminate.
  - destruct (decimal_first p) as (c0 & rest & Hp & Hc0).
    unfold scheme_start_state in Hu.
    destruct d as [|c d'] eqn:Hdeq.
    { cbn [append] in Hu. change (is_alpha ":") with false in Hu.
      discriminate. }
    cbn [append] in Hu. destruct (is_alpha c); [|discriminate].
    change (String c (d' ++ String ":" (decimal p)))
      with (String c d' ++ String ":" (decimal p)) in Hu.
    rewrite (scheme_state_name _ _ Hname) in Hu.
    destruct (all is_scheme_char (String c d')); [|discriminate].
    destruct (String.eqb (ascii_lowercase (String c d')) "file").
    { rewrite Hp in Hu. unfold file_state in Hu.
      rewrite (digit_not_a_slash c0 Hc0) in Hu.
      destruct rest; injection Hu as <-; now apply Hne. }
    destruct (is_special (ascii_lowercase (String c d'))) eqn:Hspecial.
    + rewrite (text_skip_slashes _ (decimal_authority_text p)) in Hu.
      rewrite (text_authority_state _ _ (decimal_authority_text p) Hspecial)
        in Hu.
      rewrite (proj1 (host_state_name _ (decimal_name_chars p))) in Hu.
      destruct (JS.falsy (decimal p)); [discriminate|].
      destruct (host_parse unicode_ToASCII false (decimal p)) as [hst|] eqn:Hparse;
        [|discriminate].
      injection Hu as <-. cbn [host] in Hh.
      unfold get_host in Hh. cbn [url_host url_port] in Hh.
      apply host_parse_text in Hparse.
      apply (f_equal (host_state false)) in Hh.
      rewrite (proj2 (host_state_text _ Hd)) in Hh.
      rewrite (proj1 (host_state_text _ Hparse)) in Hh. discriminate.
    + rewrite Hp in Hu. rewrite (digit_not_slash c0 Hc0) in Hu.
      destruct rest; injection Hu as <-; now apply Hne.
Qed.

(** A name of a special scheme other than "file", followed by a port, is
    read as a URL of that scheme whose host is the port number. *)
Lemma scheme_name_with_port d p :
  needs_host (ascii_lowercase d) = true -> (p <=? 65535)%N = true ->
  exists r,
    generic_try (URL_new unicode_ToASCII) (d ++ String ":" (decimal p)) =
    Return r.
Proof.
  intros (Hlower & Hne & Hfile & Hspecial)%needs_host_inv Hp.
  apply lowercase_alpha in Hlower.
  assert (Hname : all is_name_char d = true)
    by (revert Hlower; apply all_impl, alpha_name_char).
  assert (Hscheme : all is_scheme_char d = true)
    by (revert Hlower; apply all_impl, alpha_scheme_char).
  assert (Htext : all is_authority_text (d ++ String ":" (decimal p)) = true).
  { apply (shape_authority_text _ d); [now apply text_name|]. right. now exists p. }
  destruct (decimal_host_parse p Hp) as (address & Hparse & Hserialized & Hlabels).
  unfold generic_try, new_URL, URL_new, basic_URL_parse.
  rewrite (text_clean _ Htext). unfold scheme_start_state.
  destruct d as [|c d']; [discriminate|].
  cbn [append]. cbn [all] in Hlower. apply andb_prop in Hlower as [-> _].
  change (String c (d' ++ String ":" (decimal p)))
    with (String c d' ++ String ":" (decimal p)).
  rewrite (scheme_state_name _ _ Hname), Hscheme, Hfile, Hspecial.
  rewrite (text_skip_slashes _ (decimal_authority_text p)).
  rewrite (text_authority_state _ _ (decimal_authority_text p) Hspecial).
  rewrite (proj1 (host_state_name _ (decimal_name_chars p))).
  destruct (decimal_port p Hp) as (_ & _ & ->). rewrite Hparse.
  cbn [bind host port get_host get_port url_host url_port host_serialize].
  rewrite Hserialized, Hlabels. cbn [andb]. eauto.
Qed.

(** A validated host that validates to itself is a stable origin. *)
Lemma fixed_point_stable originParam h :
  validateUrl (URL_new unicode_ToASCII) originParam "generic" =
    Return (success [h]) ->
  validateUrl (URL_new unicode_ToASCII) h "generic" = Return (success [h]) ->
  stable_origin unicode_ToASCII h = true.
Proof.
  intros (d & Hd & Hform)%validated_shape Hfixed.
  pose proof (shape_authority_text h d Hd Hform) as Htext.
  rewrite validateUrl_generic in Hfixed by reflexivity.
  destruct (generic_try _ h) as [r|e] eqn:Hdirect.
  { injection Hfixed as ->. now apply (direct_attempt_not_fixed h d) in Hdirect. }
  destruct (JS.startsWith h "http") eqn:Hhttp; [discriminate|].
  destruct (generic_try _ ("http://" ++ h)) as [r|e'] eqn:Hretry;
    [|discriminate].
  injection Hfixed as ->.
  destruct (generic_try_inv _ _ _ Hretry) as (u & Hu & [= Hh] & _).
  rewrite (text_URL_new_http h Htext) in Hu.
  unfold stable_origin. rewrite Hhttp. cbn [negb andb].
  destruct Hform as [->|(p & ->)].
  - rewrite (proj1 (host_state_text d Hd)) in Hu |- *.
    destruct (JS.falsy d); [discriminate|].
    unfold stable_host.
    destruct (host_parse unicode_ToASCII false d) as [hst|]; [|discriminate].
    injection Hu as <-. cbn [host] in Hh. now apply String.eqb_eq.
  - rewrite (proj2 (host_state_text d Hd)) in Hu |- *.
    destruct (JS.falsy d); [discriminate|].
    unfold stable_host.
    destruct (host_parse unicode_ToASCII false d) as [hst|] eqn:Hparse;
      [|discriminate].
    apply host_parse_text in Hparse.
    destruct (port_state "http" (decimal p)) as [[q|]|] eqn:Hport;
      [| |discriminate]; injection Hu as <-; cbn [host] in Hh;
      unfold get_host in Hh; cbn [url_host url_port] in Hh;
      apply (f_equal (host_state false)) in Hh;
      rewrite (proj2 (host_state_text d Hd)) in Hh.
    2:{ rewrite (proj1 (host_state_text _ Hparse)) in Hh. discriminate. }
    cbn [append] in Hh.
    rewrite (proj2 (host_state_text _ Hparse)) in Hh.
    injection Hh as Hhost Hdigits.
    unfold port_state in Hport.
    destruct (all is_digit (decimal p)); [|discriminate].
    destruct (JS.falsy (decimal p)); [discriminate|]. cbv zeta in Hport.
    destruct (65535 <? number 10 (decimal p))%N eqn:Hrange; [discriminate|].
    change (default_port "http") with (Some 80%N) in Hport. cbv iota in Hport.
    destruct (80 =? number 10 (decimal p))%N eqn:Hdefault; [discriminate|].
    injection Hport as Hq.
    assert (Hle : (q <=? 65535)%N = true).
    { apply N.leb_le. apply N.ltb_ge in Hrange. lia. }
    rewrite <- Hhost, String.eqb_refl. unfold stable_port. cbv zeta.
    rewrite Hq, <- Hdigits, String.eqb_refl, Hle.
    rewrite N.eqb_sym, <- Hq, Hdefault. cbn [andb negb].
    destruct (needs_host (ascii_lowercase d)) eqn:Hneeds; [|reflexivity].
    destruct (scheme_name_with_port d q Hneeds Hle) as [r Hr].
    rewrite <- Hdigits in Hr. congruence.
Qed.


(** *** A path after the host *)

Lemma name_chars_authority_text d :
  all is_name_char d = true -> all is_authority_text d = true.
Proof. apply all_impl, name_char_authority_text. Qed.

Lemma name_then_slash_authority d rest :
  all is_name_char d = true -> authority_of true (d ++ String "/" rest) = d.
Proof.
  intros Hd%name_chars_authority_text.
  induction d as [|c d IH]; [reflexivity|].
  cbn [all] in Hd. apply andb_prop in Hd as [Hc Hd].
  apply authority_text_inv in Hc as (_ & _ & Hend & _).
  cbn [append authority_of]. now rewrite Hend, (IH Hd).
Qed.

Lemma name_then_slash_skip d rest :
  all is_name_char d = true -> JS.falsy d = false ->
  skip_slashes (d ++ String "/" rest) = d ++ String "/" rest.
Proof.
  intros Hd%name_chars_authority_text Hne.
  destruct d as [|c d]; [discriminate|].
  cbn [all] in Hd. apply andb_prop in Hd as [Hc _].
  apply authority_text_inv in Hc as (_ & Hslash & _).
  cbn [append skip_slashes]. now rewrite Hslash.
Qed.

Lemma host_parse_not_empty d hst :
  host_parse unicode_ToASCII false d = Some hst -> JS.falsy d = false.
Proof.
  destruct d as [|c d]; [|reflexivity].
  unfold host_parse. cbn. try destruct (unicode_ToASCII ""); discriminate.
Qed.

Lemma name_generic_try scheme d rest hst :
  scheme = "http" \/ scheme = "https" ->
  all is_name_char d = true ->
  host_parse unicode_ToASCII false d = Some hst ->
  Nat.eqb (List.length (JS.split "." (host_serialize hst))) 1 = false ->
  generic_try (URL_new unicode_ToASCII)
    ((scheme ++ "://" ++ d) ++ String "/" rest) =
  Return (success [host_serialize hst]).
Proof.
  intros Hscheme Hchars Hhost Hlabels.
  pose proof (host_parse_not_empty d hst Hhost) as Hne.
  pose proof (name_chars_authority_text d Hchars) as Htext.
  assert (Hprintable : all is_printable (scheme ++ "://" ++ d) = true).
  { rewrite !all_app, (text_printable d Htext).
    destruct Hscheme as [-> | ->]; reflexivity. }
  unfold generic_try, new_URL, URL_new, basic_URL_parse.
  destruct (clean_prefix _ rest Hprintable) as [rest' ->].
  assert (Hstart : scheme_start_state
                     ((scheme ++ "://" ++ d) ++ String "/" rest')
                   = Some (scheme, "//" ++ d ++ String "/" rest')).
  { destruct Hscheme as [-> | ->]; cbn [append]; reflexivity. }
  rewrite Hstart.
  assert (Hfile : String.eqb scheme "file" = false)
    by (destruct Hscheme as [-> | ->]; reflexivity).
  assert (Hspecial : is_special scheme = true)
    by (destruct Hscheme as [-> | ->]; reflexivity).
  rewrite Hfile, Hspecial.
  change (skip_slashes ("//" ++ d ++ String "/" rest'))
    with (skip_slashes (d ++ String "/" rest')).
  rewrite (name_then_slash_skip d rest' Hchars Hne).
  unfold authority_state.
  rewrite Hspecial, (name_then_slash_authority d rest' Hchars).
  rewrite (text_no_at d Htext). cbn [andb].
  rewrite (proj1 (host_state_name d Hchars)), Hne. cbn [andb negb].
  rewrite Hhost.
  cbn [bind host port get_host get_port url_host url_port].
  destruct (host_serialize hst) as [|c0 name]; [discriminate|].
  cbn [JS.falsy]. now rewrite Hlabels.
Qed.


(** *** What a successful validation returns *)

Lemma switch_generic_inv service :
  switch service = case_generic -> service = "generic".
Proof.
  unfold switch.
  destruct (String.eqb service "netlify"); [discriminate|].
  destruct (String.eqb service "vercel"); [discriminate|].
  destruct (String.eqb service "custom-scheme"); [discriminate|].
  destruct (String.eqb service "generic") eqn:Hgeneric; [|discriminate].
  intros _. now apply String.eqb_eq.
Qed.

Lemma validated_host originParam validated :
  validateUrl (URL_new unicode_ToASCII) originParam "generic" =
    Return (success validated) ->
  exists h, validated = [h].
Proof.
  intros Hvalid.
  assert (Hattempt : forall input,
             generic_try (URL_new unicode_ToASCII) input =
               Return (success validated) ->
             exists h, validated = [h]).
  { intros input Htry.
    destruct (generic_try_inv _ _ _ Htry) as (u & _ & [= ->] & _). eauto. }
  rewrite validateUrl_generic in Hvalid by reflexivity.
  destruct (generic_try _ originParam) as [r|e] eqn:Hfirst.
  - injection Hvalid as ->. now apply (Hattempt originParam).
  - destruct (JS.startsWith originParam "http"); [discriminate|].
    destruct (generic_try _ ("http://" ++ originParam)) as [r|e'] eqn:Hsecond;
      [|discriminate].
    injection Hvalid as ->. now apply (Hattempt ("http://" ++ originParam)).
Qed.

Lemma validated_scheme originParam service validated :
  switch service = case_custom_scheme ->
  validateUrl (URL_new unicode_ToASCII) originParam service =
    Return (success validated) ->
  exists scheme, validated = [scheme] /\ canonical_scheme scheme = true.
Proof.
  intros Hswitch Hvalid. rewrite validateUrl_body, Hswitch in Hvalid.
  unfold try_catch, custom_scheme_try, new_URL, URL_new in Hvalid.
  destruct (basic_URL_parse unicode_ToASCII originParam) as [u|] eqn:Hu;
    [|discriminate].
  cbn [bind protocol] in Hvalid. unfold get_protocol in Hvalid.
  rewrite slice_0_m1_colon in Hvalid. injection Hvalid as <-.
  exists (url_scheme u). split; [reflexivity|].
  destruct (basic_URL_parse_scheme_start _ _ _ Hu) as [remaining Hstart].
  now apply scheme_start_state_canonical in Hstart.
Qed.

(** Validating the scheme as it is shown. *)
Lemma shown_scheme_validation scheme service :
  switch service = case_custom_scheme ->
  canonical_scheme scheme = true ->
  validateUrl (URL_new unicode_ToASCII) (scheme ++ "://") service =
  if needs_host scheme then Return (error "Invalid scheme.")
  else Return (success [scheme]).
Proof.
  intros Hswitch Hcanonical. rewrite validateUrl_body, Hswitch.
  unfold try_catch, custom_scheme_try, new_URL.
  rewrite (canonical_URL_new unicode_ToASCII scheme Hcanonical).
  fold (needs_host scheme). destruct (needs_host scheme); [reflexivity|].
  cbn [bind protocol]. now rewrite slice_0_m1_colon.
Qed.

End Parser.

End FixedPointFacts.

Import WHATWG WHATWGFacts.

(** C8, as amended.  Let a validation succeed with the parameters
    [validated], and let the origin made from them be shown by
    [originDisplay]: as the input itself for netlify and vercel, as the
    scheme followed by "://" for custom-scheme, as the validated host [h] for
    generic.  Then validating the shown string under the same service kind
    succeeds with the parameters [validated] again in exactly these cases:
    always for netlify and vercel; for custom-scheme unless the scheme is
    "http", "https", "ftp", "ws" or "wss"; and for generic when [h] does not
    start with "http", the part of [h] before its port (before the first ":"
    outside brackets) is a host that the host parser maps to itself, and the
    port, if [h] has one, is a decimal number without leading zeros that is
    at most 65535 and not 80 and does not follow the host "ftp", "ws" or
    "wss".  In every other case the second validation fails or returns other
    parameters. *)
Theorem revalidating_a_validated_origin
  (unicode_ToASCII : string -> option string)
  (originParam service oid : string) (validated : list string)
  (Hvalid : validateUrl (URL_new unicode_ToASCII) originParam service =
            Return (success validated)) :
  exists shown,
    originDisplay (AuthorizedOrigin.mk oid service validated) = Some shown /\
    (validateUrl (URL_new unicode_ToASCII) shown service =
       Return (success validated)
     <-> revalidates unicode_ToASCII service validated = true).
Proof.
  unfold originDisplay, revalidates.
  cbn [AuthorizedOrigin.service AuthorizedOrigin.params].
  destruct (switch service) eqn:Hswitch.
  - rewrite validateUrl_body, Hswitch in Hvalid. injection Hvalid as <-.
    exists originParam. split; [reflexivity|].
    rewrite validateUrl_body, Hswitch. now split.
  - rewrite validateUrl_body, Hswitch in Hvalid. injection Hvalid as <-.
    exists originParam. split; [reflexivity|].
    rewrite validateUrl_body, Hswitch. now split.
  - destruct (validated_scheme unicode_ToASCII _ _ _ Hswitch Hvalid)
      as (scheme & -> & Hcanonical).
    exists (scheme ++ "://"). split; [reflexivity|].
    rewrite (shown_scheme_validation unicode_ToASCII _ _ Hswitch Hcanonical).
    destruct (needs_host scheme); split; intros H; try reflexivity;
      discriminate H.
  - apply switch_generic_inv in Hswitch. subst service.
    destruct (validated_host unicode_ToASCII _ _ Hvalid) as [h ->].
    exists h. split; [reflexivity|]. split.
    + now apply (fixed_point_stable unicode_ToASCII originParam).
    + now apply (stable_origin_revalidates unicode_ToASCII originParam).
  - rewrite validateUrl_body, Hswitch in Hvalid. discriminate.
Qed.

Lemma revalidating_a_validated_origin_witness :
  exists shown,
    originDisplay (AuthorizedOrigin.mk "origin-1" "generic" ["[::1]:3000"]) =
      Some shown /\
    (validateUrl (URL_new no_unicode_ToASCII) shown "generic" =
       Return (success ["[::1]:3000"])
     <-> revalidates no_unicode_ToASCII "generic" ["[::1]:3000"] = true).
Proof.
  apply (revalidating_a_validated_origin no_unicode_ToASCII
           "http://[0:0::1]:3000/callback" "generic" "origin-1"
           ["[::1]:3000"]).
  rewrite validateUrl_generic by reflexivity. vm_compute. reflexivity.
Defined.

(** C8 as stated fails.  "https://httpbin.org" validates to the host
    "httpbin.org", which starts with "http", has no scheme and is rejected
    without a retry.  A host from a URL with a scheme that is not special
    keeps its capitals and is lower-cased by the second validation.  The
    port 80, kept after "https://", is dropped after the "http://" of the
    retry.  In "ftp:8080" the second validation reads a scheme and takes
    the port for the host.  The custom scheme "https" is shown as
    "https://", which has no host and is rejected. *)
Lemma revalidation_differs_counterexample :
  (validateUrl (URL_new no_unicode_ToASCII) "https://httpbin.org" "generic" =
     Return (success ["httpbin.org"]) /\
   validateUrl (URL_new no_unicode_ToASCII) "httpbin.org" "generic" =
     Return (error "Invalid URL.")) /\
  (validateUrl (URL_new no_unicode_ToASCII) "foo://EXAMPLE.com" "generic" =
     Return (success ["EXAMPLE.com"]) /\
   validateUrl (URL_new no_unicode_ToASCII) "EXAMPLE.com" "generic" =
     Return (success ["example.com"])) /\
  (validateUrl (URL_new no_unicode_ToASCII) "https://example.com:80" "generic" =
     Return (success ["example.com:80"]) /\
   validateUrl (URL_new no_unicode_ToASCII) "example.com:80" "generic" =
     Return (success ["example.com"])) /\
  (validateUrl (URL_new no_unicode_ToASCII) "http://ftp:8080" "generic" =
     Return (success ["ftp:8080"]) /\
   validateUrl (URL_new no_unicode_ToASCII) "ftp:8080" "generic" =
     Return (success ["0.0.31.144"])) /\
  (validateUrl (URL_new no_unicode_ToASCII) "https://example.com"
     "custom-scheme" = Return (success ["https"]) /\
   originDisplay (AuthorizedOrigin.mk "origin-1" "custom-scheme" ["https"]) =
     Some "https://" /\
   validateUrl (URL_new no_unicode_ToASCII) "https://" "custom-scheme" =
     Return (error "Invalid scheme.")).
Proof.
  repeat split; try run_generic; try run_validator; reflexivity.
Qed.

(** Hosts the second validation returns unchanged, and hosts it does not. *)
Lemma stable_origin_examples :
  forallb (stable_origin no_unicode_ToASCII)
    ["example.com"; "localhost:3000"; "192.168.0.1"; "127.0.0.1:3000";
     "my_app.example.com"; "[::1]:3000"; "file:8080"] = true /\
  existsb (stable_origin no_unicode_ToASCII)
    ["httpbin.org"; "EXAMPLE.com"; "example.com:80"; "ftp:8080"; "1.2"] = false.
Proof. split; vm_compute; reflexivity. Qed.

(** X14.  For an input that is "http://" or "https://", a host [d], a "/"
    and any text, where [d] has no control character, space, "/", "\", "?",
    "#", "@", ":", "[" or "]", the host parser accepts [d], and the host it
    gives has, as serialized, more than one dot-separated label, the generic
    validation returns the serialized host alone: path, query and fragment
    are discarded, and no retry is made. *)
Theorem generic_keeps_only_the_host
  (unicode_ToASCII : string -> option string)
  (scheme d rest : string) (parsed : Host)
  (Hscheme : scheme = "http" \/ scheme = "https")
  (Hchars : all is_name_char d = true)
  (Hhost : host_parse unicode_ToASCII false d = Some parsed)
  (Hlabels : Nat.eqb (List.length (JS.split "." (host_serialize parsed))) 1
             = false) :
  validateUrl (URL_new unicode_ToASCII)
    ((scheme ++ "://" ++ d) ++ String "/" rest) "generic" =
    Return (success [host_serialize parsed]) /\
  validateUrl_call (URL_new unicode_ToASCII)
    ((scheme ++ "://" ++ d) ++ String "/" rest) "generic" 0
    (Return (success [host_serialize parsed])).
Proof.
  pose proof (name_generic_try unicode_ToASCII scheme d rest parsed
                Hscheme Hchars Hhost Hlabels) as Htry.
  split.
  - rewrite validateUrl_generic by reflexivity. now rewrite Htry.
  - now apply call_generic_return.
Qed.

Lemma generic_keeps_only_the_host_witness :
  validateUrl (URL_new no_unicode_ToASCII) "https://httpbin.org/get?x=1#top"
    "generic" = Return (success ["httpbin.org"]).
Proof.
  apply (generic_keeps_only_the_host no_unicode_ToASCII "https" "httpbin.org"
           "get?x=1#top" (domain "httpbin.org")); [right| | |]; reflexivity.
Defined.
